(** * PyGlove: JSON conversion and callable signatures

    A shallow embedding of
    - [pyglove/core/object_utils/json_conversion.py]: the type registry,
      [to_json] / [from_json], the symbol cache and [_load_symbol];
    - [pyglove/core/typing/callable_signature.py]: [Argument], [Signature],
      [Signature.__eq__] and [Signature.make_function].

    Python values are an inductive type, exceptions are a sum, and the two
    process-wide dictionaries ([_TYPE_REGISTRY] and [_LOADED_SYMBOLS]) are
    threaded through a state-and-exception monad. *)

From Stdlib Require Import List String Ascii ZArith Bool Arith Lia.
From Stdlib Require Import Floats.SpecFloat.
Import ListNotations.
Local Open Scope string_scope.
Local Open Scope list_scope.

Set Implicit Arguments.
Set Warnings "-register-all".

(* ================================================================== *)
(** ** Exceptions and results *)

Inductive exn : Type :=
| KeyError
| ValueError
| TypeError
| AssertionError
| IndexError
| ImportError
| AttributeError
| RecursionError
| OtherError (tag : string).

Inductive result (A : Type) : Type :=
| Ok (a : A)
| Raise (e : exn).

Arguments Ok {A} a.
Arguments Raise {A} e.

(* ================================================================== *)
(** ** Classes and values *)

(** A class object.  [cls_id] is the identity of the class object ([is]);
    the other fields are the attributes the two modules read. *)
Record pyclass : Type := mkClass {
  cls_id : nat;
  cls_module : string;            (* __module__ *)
  cls_qualname : string;          (* __qualname__ *)
  cls_convertible : bool;         (* issubclass(cls, JSONConvertible) *)
  cls_abstract : bool;            (* inspect.isabstract(cls) *)
  cls_auto_register : bool;       (* truth value of cls.auto_register *)
  cls_type_name : option string   (* the attribute type_name, when defined *)
}.

(** The exact type of an object whose layout is a builtin one: the builtin
    type itself, or a user class that derives from it. *)
Inductive pytype : Type :=
| Exact
| Subclass (c : pyclass).

(** Code objects: the flags word, the names, the free variables (the names
    a closure must supply), and an identity for the body. *)
Record code_obj : Type := mkCode {
  co_flags : Z;
  co_name : string;
  co_qualname : string;
  co_freevars : list string;
  co_body : nat
}.

Definition bytes := list Byte.byte.

(** A namespace is known by the names it binds. *)
Definition namespace := list string.

Record func_meta : Type := mkFunc {
  fn_module : string;             (* __module__ *)
  fn_qualname : string;           (* __qualname__ *)
  fn_name : string;               (* __name__ *)
  fn_code : code_obj;             (* __code__ *)
  fn_globals : namespace          (* __globals__ *)
}.

(** Python objects.  The items of a dictionary are kept in insertion order;
    a dictionary of the interpreter has no two equal keys, and the
    comprehensions below rebuild a dictionary from the keys of another, so
    they are maps over the items. *)
Inductive value : Type :=
| VNone
| VBool (b : bool)
| VInt (t : pytype) (n : Z)
| VFloat (t : pytype) (x : spec_float)
| VStr (t : pytype) (s : string)
| VTuple (t : pytype) (items : list value)
| VList (t : pytype) (items : list value)
| VDict (t : pytype) (items : list (value * value))
| VType (t : pytype) (c : pyclass)                 (* a class object *)
| VModule (name : string)
| VBuiltin (name : string)                         (* inspect.isbuiltin *)
| VFunction (f : func_meta) (defaults : value)     (* inspect.isfunction *)
| VMethod (module qualname : string) (self : value)(* inspect.ismethod *)
| VObject (c : pyclass) (state : nat).             (* any other instance *)

Definition kwargs := list (string * value).

(** Plain builtin values. *)
Definition vint (n : Z) : value := VInt Exact n.
Definition vfloat (x : spec_float) : value := VFloat Exact x.
Definition vstr (s : string) : value := VStr Exact s.
Definition vtuple (l : list value) : value := VTuple Exact l.
Definition vlist (l : list value) : value := VList Exact l.
Definition vdict (l : list (value * value)) : value := VDict Exact l.
Definition vtype (c : pyclass) : value := VType Exact c.

(* ================================================================== *)
(** ** Dictionaries with string keys, in insertion order *)

Section StrDict.
Variable V : Type.

Definition strdict := list (string * V).

(** [d.get(k, None)] *)
Fixpoint dict_get (k : string) (d : strdict) : option V :=
  match d with
  | [] => None
  | (k', v) :: d' => if String.eqb k' k then Some v else dict_get k d'
  end.

(** [k in d] *)
Definition dict_contains (k : string) (d : strdict) : bool :=
  match dict_get k d with Some _ => true | None => false end.

(** [d[k] = v]: an existing key keeps its place, a new one goes last. *)
Fixpoint dict_set (k : string) (v : V) (d : strdict) : strdict :=
  match d with
  | [] => [(k, v)]
  | (k', v') :: d' =>
      if String.eqb k' k then (k', v) :: d' else (k', v') :: dict_set k v d'
  end.
End StrDict.

(* ================================================================== *)
(** ** Process state and the monad *)

Record pystate : Type := mkState {
  TYPE_REGISTRY : strdict pyclass;    (* JSONConvertible._TYPE_REGISTRY *)
  LOADED_SYMBOLS : strdict value      (* _LOADED_SYMBOLS *)
}.

Definition M (A : Type) : Type := pystate -> result A * pystate.

Definition ret {A} (a : A) : M A := fun s => (Ok a, s).
Definition raise {A} (e : exn) : M A := fun s => (Raise e, s).
Definition bind {A B} (m : M A) (k : A -> M B) : M B :=
  fun s => match m s with
           | (Ok a, s') => k a s'
           | (Raise e, s') => (Raise e, s')
           end.
Definition get_state : M pystate := fun s => (Ok s, s).
Definition put_state (s' : pystate) : M unit := fun _ => (Ok tt, s').

Declare Scope py_scope.
Delimit Scope py_scope with py.
Notation "x <- m ;; k" := (bind m (fun x => k))
  (at level 61, m at next level, right associativity) : py_scope.
Notation "m ;;; k" := (bind m (fun _ => k))
  (at level 61, right associativity) : py_scope.
Local Open Scope py_scope.

(** A comprehension: the elements in order, stopping at the first raise. *)
Definition mapM {A B} (f : A -> M B) : list A -> M (list B) :=
  fix go (l : list A) : M (list B) :=
    match l with
    | [] => ret []
    | x :: t => y <- f x ;; ys <- go t ;; ret (y :: ys)
    end.

(* ================================================================== *)
(** ** _TypeRegistry *)

Module TypeRegistry.

Definition registry := strdict pyclass.

(** [__init__] *)
Definition init : registry := [].

(** [register]: the registry after the call, with what the call gave. *)
Definition register (type_name : string) (cls : pyclass)
    (override_existing : bool) (self : registry) : result unit * registry :=
  if dict_contains type_name self && negb override_existing
  then (Raise KeyError, self)
  else (Ok tt, dict_set type_name cls self).

Definition is_registered (type_name : string) (self : registry) : bool :=
  dict_contains type_name self.

Definition class_from_typename (type_name : string) (self : registry)
    : option pyclass :=
  dict_get type_name self.

Definition iteritems (self : registry) : list (string * pyclass) := self.

End TypeRegistry.

(** [_type_name]: the id of a type or function. *)
Definition _type_name (module qualname : string) : string :=
  module ++ "." ++ qualname.

Definition TYPE_NAME_KEY : string := "_type".
Definition TUPLE_MARKER : string := "__tuple__".

Module JSONConvertible.

(** The classmethods that reach the shared registry. *)
Definition register (type_name : string) (subclass : pyclass)
    (override_existing : bool) : M unit :=
  fun s =>
    let (r, reg) := TypeRegistry.register type_name subclass
                      override_existing (TYPE_REGISTRY s) in
    (r, mkState reg (LOADED_SYMBOLS s)).

Definition is_registered (type_name : string) : M bool :=
  fun s => (Ok (TypeRegistry.is_registered type_name (TYPE_REGISTRY s)), s).

Definition class_from_typename (type_name : string) : M (option pyclass) :=
  fun s =>
    (Ok (TypeRegistry.class_from_typename type_name (TYPE_REGISTRY s)), s).

Definition registered_types : M (list (string * pyclass)) :=
  fun s => (Ok (TypeRegistry.iteritems (TYPE_REGISTRY s)), s).

(** [__init_subclass__], run when the class [cls] is defined. *)
Definition __init_subclass__ (cls : pyclass) : M unit :=
  if negb (cls_abstract cls) && cls_auto_register cls then
    let type_name :=
      match cls_type_name cls with
      | Some n => n
      | None => _type_name (cls_module cls) (cls_qualname cls)
      end in
    register type_name cls true
  else ret tt.

End JSONConvertible.

(* ================================================================== *)
(** ** The interpreter around the two modules

    What the modules call and do not define: the import system, attribute
    lookup, the methods of user classes, [marshal] and [base64]. *)

Record runtime : Type := mkRuntime {
  (** [importlib.import_module(name)] *)
  import_module : string -> M value;
  (** [getattr(obj, name)] *)
  getattr : value -> string -> M value;
  (** the [to_json] method of a convertible instance, given the keywords *)
  method_to_json : value -> kwargs -> M value;
  (** [JSONConvertible.TYPE_CONVERTER] *)
  TYPE_CONVERTER : option (pyclass -> option (value -> M value));
  (** a [from_json] classmethod that a class defines for itself *)
  class_from_json : pyclass -> option (value -> M value);
  (** calling the class with [init_args] as keywords *)
  class_call : pyclass -> list (value * value) -> M value;
  marshal_dumps : code_obj -> bytes;
  marshal_loads : bytes -> result code_obj;
  base64_encodebytes : bytes -> bytes;
  base64_decodebytes : bytes -> result bytes;
  utf8_decode : bytes -> result string;
  utf8_encode : string -> bytes
}.

Definition lift {A} (r : result A) : M A := fun s => (r, s).

(* ================================================================== *)
(** ** Strings: [split], [join], [isupper] *)

(** [s.split('.')]: never empty. *)
Fixpoint split_dot (s : string) : list string :=
  match s with
  | EmptyString => [EmptyString]
  | String c s' =>
      if Ascii.eqb c "."%char then EmptyString :: split_dot s'
      else match split_dot s' with
           | [] => [String c EmptyString]
           | h :: t => String c h :: t
           end
  end.

(** ['.'.join(l)] *)
Definition join_dot (l : list string) : string := String.concat "." l.

(** [c.isupper()] for one character.  The characters of a string are
    code points below 256; the upper-case ones among them are A to Z and,
    in the Latin-1 range, 192 to 214 and 216 to 222. *)
Definition isupper (c : ascii) : bool :=
  let n := nat_of_ascii c in
  (Nat.leb 65 n && Nat.leb n 90)
  || (Nat.leb 192 n && Nat.leb n 214)
  || (Nat.leb 216 n && Nat.leb n 222).

(** [*init, last = l] *)
Fixpoint unpack_last (l : list string) : option (list string * string) :=
  match l with
  | [] => None
  | [x] => Some ([], x)
  | x :: t => match unpack_last t with
              | Some (init, last) => Some (x :: init, last)
              | None => None
              end
  end.

(* ================================================================== *)
(** ** The symbol cache and [_load_symbol] *)

(** The loop over [enumerate(maybe_modules)]: the index of the first name
    whose first character is upper-case; [name[0]] raises on an empty name. *)
Fixpoint find_module_end (i : nat) (names : list string)
    : result (option nat) :=
  match names with
  | [] => Ok None
  | name :: rest =>
      match name with
      | EmptyString => Raise IndexError
      | String c _ =>
          if isupper c then Ok (Some i) else find_module_end (S i) rest
      end
  end.

(** [for name in parent_symbols: parent = getattr(parent, name)] *)
Fixpoint getattr_chain (rt : runtime) (parent : value) (names : list string)
    : M value :=
  match names with
  | [] => ret parent
  | name :: rest => p <- getattr rt parent name ;; getattr_chain rt p rest
  end.

Definition is_none (v : value) : bool :=
  match v with VNone => true | _ => false end.

Definition cache_store (type_name : string) (symbol : value) : M unit :=
  fun s => (Ok tt, mkState (TYPE_REGISTRY s)
                           (dict_set type_name symbol (LOADED_SYMBOLS s))).

Definition _load_symbol (rt : runtime) (type_name : string) : M value :=
  s <- get_state ;;
  let symbol := match dict_get type_name (LOADED_SYMBOLS s) with
                | Some v => v
                | None => VNone
                end in
  if is_none symbol then
    match unpack_last (split_dot type_name) with
    | None => raise ValueError
    | Some (maybe_modules, symbol_name) =>
        module_end_pos <- lift (find_module_end 0 maybe_modules) ;;
        let '(module_name, parent_symbols) :=
          match module_end_pos with
          | None => (join_dot maybe_modules, [])
          | Some pos => (join_dot (firstn pos maybe_modules),
                         skipn pos maybe_modules)
          end in
        module <- import_module rt module_name ;;
        parent <- getattr_chain rt module parent_symbols ;;
        symbol <- getattr rt parent symbol_name ;;
        cache_store type_name symbol ;;;
        ret symbol
    end
  else ret symbol.

(* ================================================================== *)
(** ** Runtime types: [type(value)] and [isinstance] *)

Definition builtin_class (id : nat) (name : string) : pyclass :=
  mkClass id "builtins" name false false false None.

Definition exact_or (t : pytype) (builtin : pyclass) : pyclass :=
  match t with Exact => builtin | Subclass c => c end.

(** [type(value)] *)
Definition type_of (v : value) : pyclass :=
  match v with
  | VNone => builtin_class 0 "NoneType"
  | VBool _ => builtin_class 1 "bool"
  | VInt t _ => exact_or t (builtin_class 2 "int")
  | VFloat t _ => exact_or t (builtin_class 3 "float")
  | VStr t _ => exact_or t (builtin_class 4 "str")
  | VTuple t _ => exact_or t (builtin_class 5 "tuple")
  | VList t _ => exact_or t (builtin_class 6 "list")
  | VDict t _ => exact_or t (builtin_class 7 "dict")
  | VType t _ => exact_or t (builtin_class 8 "type")
  | VModule _ => builtin_class 9 "module"
  | VBuiltin _ => builtin_class 10 "builtin_function_or_method"
  | VFunction _ _ => builtin_class 11 "function"
  | VMethod _ _ _ => builtin_class 12 "method"
  | VObject c _ => c
  end.

(** [isinstance(value, (type(None), bool, int, float, str))] *)
Definition isinstance_primitive (v : value) : bool :=
  match v with
  | VNone | VBool _ | VInt _ _ | VFloat _ _ | VStr _ _ => true
  | _ => false
  end.

(** [isinstance(value, JSONConvertible)] *)
Definition isinstance_convertible (v : value) : bool :=
  cls_convertible (type_of v).

Definition isinstance_tuple (v : value) : bool :=
  match v with VTuple _ _ => true | _ => false end.
Definition isinstance_list (v : value) : bool :=
  match v with VList _ _ => true | _ => false end.
Definition isinstance_dict (v : value) : bool :=
  match v with VDict _ _ => true | _ => false end.
Definition isinstance_type (v : value) : bool :=
  match v with VType _ _ => true | _ => false end.
Definition isbuiltin (v : value) : bool :=
  match v with VBuiltin _ => true | _ => false end.
Definition isfunction (v : value) : bool :=
  match v with VFunction _ _ => true | _ => false end.
Definition ismethod (v : value) : bool :=
  match v with VMethod _ _ _ => true | _ => false end.

(** [key == s] for a dictionary key and a string literal. *)
Definition str_equals (key : value) (s : string) : bool :=
  match key with VStr _ s' => String.eqb s' s | _ => false end.

(* ================================================================== *)
(** ** Serialisation helpers *)

(** [t is symbol], for a class object [t]. *)
Definition is_class (c : pyclass) (symbol : value) : bool :=
  match symbol with
  | VType _ c' => Nat.eqb (cls_id c) (cls_id c')
  | _ => false
  end.

Definition _type_to_json (rt : runtime) (t : pyclass) : M value :=
  let type_name := _type_name (cls_module t) (cls_qualname t) in
  fun s =>
    match _load_symbol rt type_name s with
    | (Ok symbol, s') =>
        if is_class t symbol
        then (Ok (vdict [(vstr TYPE_NAME_KEY, vstr "type");
                         (vstr "name", vstr type_name)]), s')
        else (Raise ValueError, s')
    | (Raise _, s') => (Raise ValueError, s')
    end.

Definition _builtin_function_to_json (name : string) : value :=
  vdict [(vstr TYPE_NAME_KEY, vstr "function");
         (vstr "name", vstr ("builtins." ++ name))].

Definition CO_NESTED : Z := 16.

(** The test of [_function_to_json]: a lambda, or a local function. *)
Definition needs_code (f : func_meta) : bool :=
  String.eqb "<lambda>" (fn_name f)
  || negb (Z.eqb (Z.land (co_flags (fn_code f)) CO_NESTED) 0).

(** [base64.encodebytes(marshal.dumps(code)).decode('utf-8')] *)
Definition encode_code (rt : runtime) (code : code_obj) : M value :=
  s <- lift (utf8_decode rt (base64_encodebytes rt (marshal_dumps rt code))) ;;
  ret (vstr s).

(** [_function_to_json], given the serialiser for [f.__defaults__]. *)
Definition _function_to_json (rt : runtime) (to_json_defaults : M value)
    (f : func_meta) : M value :=
  let name := _type_name (fn_module f) (fn_qualname f) in
  if needs_code f then
    code <- encode_code rt (fn_code f) ;;
    defaults <- to_json_defaults ;;
    ret (vdict [(vstr TYPE_NAME_KEY, vstr "function");
                (vstr "name", vstr name);
                (vstr "code", code);
                (vstr "defaults", defaults)])
  else
    ret (vdict [(vstr TYPE_NAME_KEY, vstr "function");
                (vstr "name", vstr name)]).

Definition _method_to_json (module qualname : string) (self : value)
    : M value :=
  let type_name := _type_name module qualname in
  if isinstance_type self
  then ret (vdict [(vstr TYPE_NAME_KEY, vstr "method");
                   (vstr "name", vstr type_name)])
  else raise ValueError.

(* ================================================================== *)
(** ** [to_json]

    The recursion is structural in the value, except for the call on what a
    type converter returns: that one spends [fuel], and an exhausted fuel is
    Python's recursion limit. *)

Fixpoint to_json (rt : runtime) (fuel : nat) {struct fuel}
    : value -> kwargs -> M value :=
  fix go (v : value) (kw : kwargs) {struct v} : M value :=
    if isinstance_primitive v then ret v
    else if isinstance_convertible v then method_to_json rt v kw
    else
      match v with
      | VTuple _ items =>
          l <- mapM (fun item => go item kw) items ;;
          ret (vlist (vstr TUPLE_MARKER :: l))
      | VList _ items =>
          l <- mapM (fun item => go item kw) items ;;
          ret (vlist l)
      | VDict _ items =>
          l <- mapM (fun kv : value * value =>
                       let (k, x) := kv in
                       y <- go x kw ;; ret (k, y)) items ;;
          ret (vdict l)
      | VType _ c => _type_to_json rt c
      | VBuiltin name => ret (_builtin_function_to_json name)
      | VFunction f defaults => _function_to_json rt (go defaults []) f
      | VMethod module qualname self => _method_to_json module qualname self
      | _ =>
          match TYPE_CONVERTER rt with
          | Some type_converter =>
              match type_converter (type_of v) with
              | Some converter =>
                  match fuel with
                  | O => raise RecursionError
                  | S fuel' =>
                      x <- converter v ;; to_json rt fuel' x []
                  end
              | None => raise ValueError
              end
          | None => raise ValueError
          end
      end.

(* ================================================================== *)
(** ** Deserialisation helpers *)

(** [key in json_value], for a string literal [key]. *)
Definition dict_has_key (key : string) (items : list (value * value)) : bool :=
  existsb (fun kv => str_equals (fst kv) key) items.

(** [json_value[key]] handed to [present]; [absent] when the key is missing. *)
Definition with_item {B} (key : string) (present : value -> M B)
    (absent : M B) : list (value * value) -> M B :=
  fix go (l : list (value * value)) : M B :=
    match l with
    | [] => absent
    | (k, x) :: t => if str_equals k key then present x else go t
    end.

(** [hash(v)] does not raise: lists and dictionaries are unhashable, and
    so is a tuple that holds an unhashable element. *)
Fixpoint hashable (v : value) : bool :=
  match v with
  | VList _ _ | VDict _ _ => false
  | VTuple _ items => forallb hashable items
  | _ => true
  end.

(** [_load_symbol] on whatever value the JSON carried as a name: the cache
    lookup hashes it, and only a string can be split. *)
Definition _load_symbol_of (rt : runtime) (name : value) : M value :=
  match name with
  | VStr _ s => _load_symbol rt s
  | _ => if hashable name then raise AttributeError else raise TypeError
  end.

Definition _type_from_json (rt : runtime) (items : list (value * value))
    : M value :=
  with_item "name" (_load_symbol_of rt) (raise KeyError) items.

Definition _method_from_json (rt : runtime) (items : list (value * value))
    : M value :=
  with_item "name" (_load_symbol_of rt) (raise KeyError) items.

(** The names bound at the top level of [json_conversion.py]: what its
    [globals()] is. *)
Definition json_conversion_module : string :=
  "pyglove.core.object_utils.json_conversion".

Definition module_globals : namespace :=
  [ "__name__"; "__doc__"; "__package__"; "__loader__"; "__spec__";
    "__file__"; "__cached__"; "__builtins__"; "abc"; "base64"; "importlib"; "inspect"; "marshal"; "types";
    "Any"; "Callable"; "Dict"; "Iterable"; "List"; "Optional"; "Tuple";
    "Type"; "TypeVar"; "Union"; "T"; "Nestable"; "JSONPrimitiveType";
    "JSONListType"; "JSONDictType"; "JSONValueType"; "_TypeRegistry";
    "JSONConvertible"; "registered_types"; "to_json"; "from_json";
    "_type_name"; "_type_to_json"; "_builtin_function_to_json";
    "_function_to_json"; "_method_to_json"; "_LOADED_SYMBOLS";
    "_load_symbol"; "_type_from_json"; "_function_from_json";
    "_method_from_json" ].

(** [types.FunctionType(code=, globals=, argdefs=)], called without a
    closure: the defaults are [None] or a tuple, and the code has no free
    variable, or the constructor raises [TypeError]; the module of the
    function is the [__name__] of its globals. *)
Definition FunctionType (code : code_obj) (globals : namespace)
    (globals_name : string) (argdefs : value) : M value :=
  match argdefs with
  | VNone | VTuple _ _ =>
      match co_freevars code with
      | [] =>
          ret (VFunction (mkFunc globals_name (co_qualname code)
                                 (co_name code) code globals) argdefs)
      | _ :: _ => raise TypeError
      end
  | _ => raise TypeError
  end.

(** [marshal.loads(base64.decodebytes(blob.encode('utf-8')))] *)
Definition decode_code (rt : runtime) (blob : value) : M code_obj :=
  match blob with
  | VStr _ s =>
      raw <- lift (base64_decodebytes rt (utf8_encode rt s)) ;;
      lift (marshal_loads rt raw)
  | _ => raise AttributeError
  end.

Definition _function_from_json (rt : runtime) (from_json : value -> M value)
    (items : list (value * value)) : M value :=
  with_item "name"
    (fun function_name =>
       if dict_has_key "code" items then
         code <- with_item "code" (decode_code rt) (raise KeyError) items ;;
         defaults <- with_item "defaults" from_json (raise KeyError) items ;;
         FunctionType code module_globals json_conversion_module defaults
       else _load_symbol_of rt function_name)
    (raise KeyError) items.

(** [{k: from_json(v) for k, v in json_value.items() if k != '_type'}] *)
Definition init_args_of (from_json : value -> M value)
    : list (value * value) -> M (list (value * value)) :=
  fix go (l : list (value * value)) : M (list (value * value)) :=
    match l with
    | [] => ret []
    | (k, x) :: t =>
        if negb (str_equals k TYPE_NAME_KEY)
        then y <- from_json x ;; r <- go t ;; ret ((k, y) :: r)
        else go t
    end.

(** The classmethod [JSONConvertible.from_json], given the module-level
    [from_json] it calls on the values. *)
Definition JSONConvertible_from_json (rt : runtime)
    (from_json : value -> M value) (cls : pyclass) (json_value : value)
    (kw : kwargs) : M value :=
  match json_value with
  | VDict _ items =>
      init_args <- init_args_of from_json items ;;
      class_call rt cls init_args
  | _ => raise AssertionError
  end.

(** [JSONConvertible.class_from_typename] on the value under ['_type']. *)
Definition class_of_type_name (type_name : value) : M (option pyclass) :=
  match type_name with
  | VStr _ s => JSONConvertible.class_from_typename s
  | _ => if hashable type_name then ret None else raise TypeError
  end.

(* ================================================================== *)
(** ** [from_json] *)

Fixpoint from_json (rt : runtime) (json_value : value) {struct json_value}
    : M value :=
  match json_value with
  | VList _ items =>
      match items with
      | first :: rest =>
          if str_equals first TUPLE_MARKER then
            match rest with
            | [] => raise ValueError
            | _ :: _ => l <- mapM (from_json rt) rest ;; ret (vtuple l)
            end
          else l <- mapM (from_json rt) items ;; ret (vlist l)
      | [] => ret (vlist [])
      end
  | VDict _ items =>
      if negb (dict_has_key TYPE_NAME_KEY items) then
        l <- mapM (fun kv : value * value =>
                     let (k, x) := kv in
                     y <- from_json rt x ;; ret (k, y)) items ;;
        ret (vdict l)
      else
        with_item TYPE_NAME_KEY
          (fun type_name =>
             if str_equals type_name "type" then _type_from_json rt items
             else if str_equals type_name "function"
             then _function_from_json rt (from_json rt) items
             else if str_equals type_name "method"
             then _method_from_json rt items
             else
               cls <- class_of_type_name type_name ;;
               match cls with
               | None => raise TypeError
               | Some c =>
                   match class_from_json rt c with
                   | Some own => own json_value
                   | None =>
                       if cls_convertible c
                       then JSONConvertible_from_json rt (from_json rt) c
                                                      json_value []
                       else raise AttributeError
                   end
               end)
          (raise KeyError) items
  | _ => ret json_value
  end.

(* ================================================================== *)
(** ** callable_signature.py *)

(** The value specifications of [class_schema] are used through an
    interface: the annotation ([None] stands for [MISSING_VALUE]), the
    default, identity ([is]), [==] with another specification and with
    [None], and the two constructors [from_annotation] ([None] stands for
    [inspect.Parameter.empty]) and [set_default], each with the exception it
    raises, if any, on given arguments. *)
Class ValueSpecOps (VS : Type) : Type := {
  vs_annotation : VS -> option value;
  vs_has_default : VS -> bool;
  vs_default : VS -> value;
  vs_is : VS -> VS -> bool;
  vs_eq : VS -> VS -> bool;
  vs_eq_none : VS -> bool;
  vs_from_annotation : option value -> bool -> VS;
  vs_from_annotation_raises : option value -> bool -> option exn;
  vs_set_default : VS -> value -> VS;
  vs_set_default_raises : VS -> value -> option exn
}.

(** The class of a signature object: its identity, and the identities of
    the classes it derives from.  [Signature] itself is class 0. *)
Record signature_class : Type := mkSigClass {
  sc_id : nat;
  sc_bases : list nat
}.

Definition Signature_class : signature_class := mkSigClass 0 [].

(** [issubclass(c, base)] *)
Definition issubclass (c base : signature_class) : bool :=
  Nat.eqb (sc_id c) (sc_id base)
  || existsb (Nat.eqb (sc_id base)) (sc_bases c).

(** The identity of the class [Argument]. *)
Definition Argument_class : nat := 0.

Inductive CallableType : Type := FUNCTION | METHOD.

Definition CallableType_eqb (a b : CallableType) : bool :=
  match a, b with
  | FUNCTION, FUNCTION | METHOD, METHOD => true
  | _, _ => false
  end.

Section SignatureModel.
Context {VS : Type} `{ValueSpecOps VS}.

(** The dataclass [Argument]; [arg_id] is the identity of the object and
    [arg_class] that of its class. *)
Record Argument : Type := mkArgument {
  arg_id : nat;
  arg_class : nat;
  arg_name : string;
  arg_value_spec : VS
}.

Record Signature : Type := mkSignature {
  sig_id : nat;                         (* identity of the object *)
  sig_class : signature_class;          (* __class__ *)
  callable_type : CallableType;
  name : string;
  module_name : string;
  args : list Argument;
  kwonlyargs : list Argument;
  varargs : option Argument;
  varkw : option Argument;
  return_value : option VS;
  qualname : string
}.

Definition or_else {A} (o : option A) (d : A) : A :=
  match o with Some a => a | None => d end.

(** [Signature.__init__], on a new object [id] of class [cls]; an empty
    qualname is falsy as well. *)
Definition Signature_init (id : nat) (cls : signature_class)
    (callable_type : CallableType)
    (name module_name : string) (args kwonlyargs : option (list Argument))
    (varargs varkw : option Argument) (return_value : option VS)
    (qualname : option string) : Signature :=
  mkSignature id cls callable_type name module_name
    (or_else args []) (or_else kwonlyargs []) varargs varkw return_value
    (match qualname with
     | Some q => if String.eqb q "" then name else q
     | None => name
     end).

Definition named_args (self : Signature) : list Argument :=
  args self ++ kwonlyargs self.

Definition arg_names (self : Signature) : list string :=
  map arg_name (named_args self).

Definition has_varargs (self : Signature) : bool :=
  match varargs self with Some _ => true | None => false end.

Definition has_varkw (self : Signature) : bool :=
  match varkw self with Some _ => true | None => false end.

Definition get_value_spec (self : Signature) (n : string) : option VS :=
  match find (fun arg => String.eqb (arg_name arg) n) (named_args self) with
  | Some arg => Some (arg_value_spec arg)
  | None => match varkw self with
            | Some kw => Some (arg_value_spec kw)
            | None => None
            end
  end.

(** *** Equality *)

(** What a container does to compare two of its elements: identity first,
    then [==]. *)
Definition vs_equal (a b : VS) : bool := vs_is a b || vs_eq a b.

(** [Argument.__eq__], as the dataclass generates it: for two objects of
    the same class the tuples of the fields are compared; otherwise the
    comparison is not implemented on either side and [==] is false. *)
Definition Argument_eq (a b : Argument) : bool :=
  Nat.eqb (arg_class a) (arg_class b)
  && String.eqb (arg_name a) (arg_name b)
  && vs_equal (arg_value_spec a) (arg_value_spec b).

Definition Argument_is (a b : Argument) : bool :=
  Nat.eqb (arg_id a) (arg_id b).

Definition Argument_equal (a b : Argument) : bool :=
  Argument_is a b || Argument_eq a b.

(** [==] on two lists of arguments. *)
Fixpoint list_eq (l1 l2 : list Argument) : bool :=
  match l1, l2 with
  | [], [] => true
  | a :: t1, b :: t2 => Argument_equal a b && list_eq t1 t2
  | _, _ => false
  end.

(** [==] on two optional arguments: [None] equals [None] only. *)
Definition opt_arg_eq (a b : option Argument) : bool :=
  match a, b with
  | None, None => true
  | Some x, Some y => Argument_eq x y
  | _, _ => false
  end.

(** [==] on two optional specifications: between [None] and a
    specification, on either side, it is the specification that answers. *)
Definition opt_spec_eq (a b : option VS) : bool :=
  match a, b with
  | None, None => true
  | Some x, Some y => vs_eq x y
  | Some x, None => vs_eq_none x
  | None, Some y => vs_eq_none y
  end.

(** What [__eq__] may be handed. *)
Inductive pyobject : Type :=
| ASignature (s : Signature)
| AnythingElse (v : value).

Definition Signature_eq (self : Signature) (other : pyobject) : bool :=
  match other with
  | AnythingElse _ => false
  | ASignature other =>
      if negb (issubclass (sig_class other) (sig_class self)) then false
      else if Nat.eqb (sig_id self) (sig_id other) then true
      else
        CallableType_eqb (callable_type self) (callable_type other)
        && String.eqb (name self) (name other)
        && String.eqb (qualname self) (qualname other)
        && String.eqb (module_name self) (module_name other)
        && list_eq (args self) (args other)
        && list_eq (kwonlyargs self) (kwonlyargs other)
        && opt_arg_eq (varargs self) (varargs other)
        && opt_arg_eq (varkw self) (varkw other)
        && opt_spec_eq (return_value self) (return_value other)
  end.

Definition Signature_ne (self : Signature) (other : pyobject) : bool :=
  negb (Signature_eq self other).

(** *** Introspection: [Signature.from_callable] *)

Inductive ParameterKind : Type :=
| POSITIONAL_ONLY
| POSITIONAL_OR_KEYWORD
| VAR_POSITIONAL
| KEYWORD_ONLY
| VAR_KEYWORD.

(** An [inspect.Parameter]; [None] stands for [inspect.Parameter.empty]. *)
Record inspect_Parameter : Type := mkParameter {
param_name : string;
param_kind : ParameterKind;
param_default : option value;
param_annotation : option value
}.

(** A function, method or builtin: what [inspect.isroutine] accepts. *)
Record routine : Type := mkRoutine {
r_name : string;                  (* __name__ *)
r_module : option string;         (* __module__, when there is one *)
r_qualname : string;              (* __qualname__ *)
r_bound : bool;                   (* inspect.ismethod *)
r_signature_error : option exn;   (* what inspect.signature(func) raises *)
r_parameters : list inspect_Parameter     (* inspect.signature(func).parameters *)
}.

(** A function as [object_utils.make_function] hands it back, with the
  metadata a caller may overwrite. *)
Record synthesized : Type := mkSynthesized {
syn_name : string;                (* __name__ *)
syn_module : string;              (* __module__ *)
syn_qualname : string;            (* __qualname__ *)
syn_args : list string;           (* the parameter list of its source *)
syn_body : list string;
syn_globals : strdict value;
syn_locals : strdict value;
syn_return_type : option VS
}.

(** Modelled from the spec: [object_utils.make_function] is not part of the
  sources at hand.  It compiles a callable named [name] whose parameter
  list is [args], in order, and whose body is the given lines, in the
  given namespaces. *)
Definition object_utils_make_function (name : string)
  (args body : list string) (exec_globals exec_locals : strdict value)
  (return_type : option VS) : synthesized :=
mkSynthesized name "" name args body exec_globals exec_locals return_type.

Inductive callable_object : Type :=
| NonCallable (v : value)
| Functor (signature : option Signature)
| Routine (r : routine)
| WithCall (call : option routine).   (* [__call__], when it is a routine *)

(** The local [get_value_spec] of [from_callable]. *)
Definition param_value_spec (param : inspect_Parameter) : VS :=
  match param_default param with
  | Some d => vs_set_default (vs_from_annotation (Some d) true) d
  | None =>
      match param_annotation param with
      | Some a => vs_from_annotation (Some a) true
      | None => vs_from_annotation None false
      end
  end.

(** What the local [get_value_spec] raises on a parameter, if anything. *)
Definition param_value_spec_raises (param : inspect_Parameter) : option exn :=
  match param_default param with
  | Some d =>
      match vs_from_annotation_raises (Some d) true with
      | Some e => Some e
      | None => vs_set_default_raises (vs_from_annotation (Some d) true) d
      end
  | None =>
      match param_annotation param with
      | Some a => vs_from_annotation_raises (Some a) true
      | None => vs_from_annotation_raises None false
      end
  end.

Definition make_arg_spec (id : nat) (param : inspect_Parameter) : Argument :=
  mkArgument id Argument_class (param_name param) (param_value_spec param).

(** [inspect.signature(func)]: the parameters, or what it raises. *)
Definition inspect_signature (func : routine)
    : result (list inspect_Parameter) :=
  match r_signature_error func with
  | Some e => Raise e
  | None => Ok (r_parameters func)
  end.

(** The first exception of the loop over the parameters, if any. *)
Fixpoint first_raise (params : list inspect_Parameter) : option exn :=
  match params with
  | [] => None
  | param :: rest =>
      match param_value_spec_raises param with
      | Some e => Some e
      | None => first_raise rest
      end
  end.

(** The four accumulators of the loop over the parameters. *)
Definition buckets : Type :=
  (list Argument * list Argument * option Argument * option Argument)%type.

Fixpoint classify (id : nat) (params : list inspect_Parameter) (acc : buckets)
    : buckets :=
  match params with
  | [] => acc
  | param :: rest =>
      let '(args, kwonly_args, varargs, varkw) := acc in
      let arg_spec := make_arg_spec id param in
      classify (S id) rest
        match param_kind param with
        | POSITIONAL_ONLY | POSITIONAL_OR_KEYWORD =>
            (args ++ [arg_spec], kwonly_args, varargs, varkw)
        | KEYWORD_ONLY => (args, kwonly_args ++ [arg_spec], varargs, varkw)
        | VAR_POSITIONAL => (args, kwonly_args, Some arg_spec, varkw)
        | VAR_KEYWORD => (args, kwonly_args, varargs, Some arg_spec)
        end
  end.

Definition signature_of_routine (id : nat) (func : routine) : Signature :=
  let '(args, kwonly_args, varargs, varkw) :=
    classify (S id) (r_parameters func) ([], [], None, None) in
  Signature_init id Signature_class
    (if r_bound func then METHOD else FUNCTION)
    (r_name func)
    (or_else (r_module func) "wrapper")
    (Some args) (Some kwonly_args) varargs varkw None
    (Some (r_qualname func)).

(** The introspection of a routine: [inspect.signature] may raise, then
    the loop over the parameters may; otherwise the signature is built. *)
Definition introspect (id : nat) (func : routine) : result Signature :=
  match inspect_signature func with
  | Raise e => Raise e
  | Ok params =>
      match first_raise params with
      | Some e => Raise e
      | None => Ok (signature_of_routine id func)
      end
  end.

(** [Signature.from_callable]; [id] is the first free object identity. *)
Definition from_callable (id : nat) (callable_object : callable_object)
    : result Signature :=
  match callable_object with
  | NonCallable _ => Raise TypeError
  | Functor None => Raise AssertionError
  | Functor (Some signature) => Ok signature
  | Routine func => introspect id func
  | WithCall None => Raise TypeError
  | WithCall (Some func) => introspect id func
  end.

(** *** Synthesis: [Signature.make_function] *)

(** The local [_append_arg]: one more entry of [args], and the names it
    binds in [exec_locals]. *)
Definition _append_arg (arg_name : string) (arg_spec : VS)
    (force_missing_as_default : bool) (arg_prefix : string)
    (st : list string * strdict value) : list string * strdict value :=
  let '(args, exec_locals) := st in
  let s := (arg_prefix ++ arg_name)%string in
  let '(s, exec_locals) :=
    match vs_annotation arg_spec with
    | Some a => ((s ++ ": _annotation_" ++ arg_name)%string,
                 dict_set ("_annotation_" ++ arg_name)%string a exec_locals)
    | None => (s, exec_locals)
    end in
  let '(s, exec_locals) :=
    if String.eqb arg_prefix ""
       && (force_missing_as_default || vs_has_default arg_spec)
    then ((s ++ " = _default_" ++ arg_name)%string,
          dict_set ("_default_" ++ arg_name)%string (vs_default arg_spec)
                   exec_locals)
    else (s, exec_locals) in
  (args ++ [s], exec_locals).

(** The loop over [self.args], with its flag. *)
Fixpoint append_positional (l : list Argument) (has_previous_default : bool)
    (st : list string * strdict value) : list string * strdict value :=
  match l with
  | [] => st
  | arg :: rest =>
      let st := _append_arg (arg_name arg) (arg_value_spec arg)
                            has_previous_default "" st in
      append_positional rest
        (if vs_has_default (arg_value_spec arg) then true
         else has_previous_default) st
  end.

(** The loop over [self.kwonlyargs]. *)
Fixpoint append_kwonly (l : list Argument)
    (st : list string * strdict value) : list string * strdict value :=
  match l with
  | [] => st
  | arg :: rest =>
      append_kwonly rest
        (_append_arg (arg_name arg) (arg_value_spec arg) false "" st)
  end.

(** The parameter list and the local namespace [make_function] builds. *)
Definition build_args (self : Signature) (exec_locals : strdict value)
    : list string * strdict value :=
  let st := append_positional (args self) false ([], exec_locals) in
  let st :=
    match varargs self with
    | Some va => _append_arg (arg_name va) (arg_value_spec va) false "*" st
    | None =>
        match kwonlyargs self with
        | [] => st
        | _ :: _ => (fst st ++ ["*"], snd st)
        end
    end in
  let st := append_kwonly (kwonlyargs self) st in
  match varkw self with
  | Some kw => _append_arg (arg_name kw) (arg_value_spec kw) false "**" st
  | None => st
  end.

Definition make_function (self : Signature) (body : list string)
    (exec_globals exec_locals : option (strdict value)) : synthesized :=
  let exec_globals := or_else exec_globals [] in
  let exec_locals := or_else exec_locals [] in
  let '(args, exec_locals) := build_args self exec_locals in
  let fn := object_utils_make_function (name self) args body
              exec_globals exec_locals (return_value self) in
  mkSynthesized (name self) (module_name self) (qualname self)
    (syn_args fn) (syn_body fn) (syn_globals fn) (syn_locals fn)
    (syn_return_type fn).

End SignatureModel.

Arguments Argument VS : clear implicits.
Arguments Signature VS : clear implicits.
Arguments synthesized VS : clear implicits.

(* ================================================================== *)
(** ** Vocabulary of the statements *)

(** *** Plain data: primitives, and lists, tuples and string-keyed
    dictionaries of plain data. *)

Definition is_str (v : value) : bool :=
  match v with VStr _ _ => true | _ => false end.

Fixpoint plain_data (v : value) : bool :=
  match v with
  | VNone | VBool _ | VInt _ _ | VFloat _ _ | VStr _ _ => true
  | VTuple Exact items => forallb plain_data items
  | VList Exact items => forallb plain_data items
  | VDict Exact items =>
      forallb (fun kv : value * value =>
                 let (k, x) := kv in is_str k && plain_data x) items
  | _ => false
  end.

(** [json_value and json_value[0] == TUPLE_MARKER] *)
Definition starts_with_marker (items : list value) : bool :=
  match items with
  | first :: _ => str_equals first TUPLE_MARKER
  | [] => false
  end.

(** Data whose encoding cannot be taken for another value's: no empty
    tuple, no list that starts with the tuple marker, no dictionary with
    the type key; at every depth. *)
Fixpoint unambiguous (v : value) : bool :=
  match v with
  | VTuple _ items =>
      negb (Nat.eqb (List.length items) 0) && forallb unambiguous items
  | VList _ items =>
      negb (starts_with_marker items) && forallb unambiguous items
  | VDict _ items =>
      negb (dict_has_key TYPE_NAME_KEY items)
      && forallb (fun kv : value * value => unambiguous (snd kv)) items
  | _ => true
  end.

(** What the induction on a round trip carries: the encoding is produced
    without touching the state, decodes to the value, and is a given string
    exactly when the value is. *)
Definition round_trips (rt : runtime) (fuel : nat) (kw : kwargs) (x : value)
    : Prop :=
  plain_data x = true -> unambiguous x = true ->
  exists j,
    (forall s, to_json rt fuel x kw s = (Ok j, s))
    /\ (forall s, from_json rt j s = (Ok x, s))
    /\ (forall m, str_equals j m = str_equals x m).

(** [json_value[key]], as a pure lookup. *)
Fixpoint dict_lookup (key : string) (items : list (value * value))
    : option value :=
  match items with
  | [] => None
  | (k, x) :: t => if str_equals k key then Some x else dict_lookup key t
  end.

(** *** The categories of [to_json], in the order of the specification *)

Inductive category : Type :=
| CPrimitive | CConvertible | CTuple | CList | CDict | CType
| CBuiltin | CFunction | CMethod | CFallback.

Definition precedence : list category :=
  [CPrimitive; CConvertible; CTuple; CList; CDict; CType;
   CBuiltin; CFunction; CMethod; CFallback].

(** Whether a value belongs to a category; everything is in the last. *)
Definition matches (c : category) (v : value) : bool :=
  match c with
  | CPrimitive => isinstance_primitive v
  | CConvertible => isinstance_convertible v
  | CTuple => isinstance_tuple v
  | CList => isinstance_list v
  | CDict => isinstance_dict v
  | CType => isinstance_type v
  | CBuiltin => isbuiltin v
  | CFunction => isfunction v
  | CMethod => ismethod v
  | CFallback => true
  end.

(** The pluggable fallback. *)
Definition convert_fallback (rt : runtime) (fuel : nat) (v : value)
    : M value :=
  match TYPE_CONVERTER rt with
  | Some type_converter =>
      match type_converter (type_of v) with
      | Some converter =>
          match fuel with
          | O => raise RecursionError
          | S fuel' => x <- converter v ;; to_json rt fuel' x []
          end
      | None => raise ValueError
      end
  | None => raise ValueError
  end.

(** What each category does with a value of it. *)
Definition branch (rt : runtime) (fuel : nat) (c : category) (v : value)
    (kw : kwargs) : M value :=
  match c, v with
  | CPrimitive, _ => ret v
  | CConvertible, _ => method_to_json rt v kw
  | CTuple, VTuple _ items =>
      l <- mapM (fun item => to_json rt fuel item kw) items ;;
      ret (vlist (vstr TUPLE_MARKER :: l))
  | CList, VList _ items =>
      l <- mapM (fun item => to_json rt fuel item kw) items ;;
      ret (vlist l)
  | CDict, VDict _ items =>
      l <- mapM (fun kv : value * value =>
                   let (k, x) := kv in
                   y <- to_json rt fuel x kw ;; ret (k, y)) items ;;
      ret (vdict l)
  | CType, VType _ c => _type_to_json rt c
  | CBuiltin, VBuiltin name => ret (_builtin_function_to_json name)
  | CFunction, VFunction f defaults =>
      _function_to_json rt (to_json rt fuel defaults []) f
  | CMethod, VMethod module qualname self =>
      _method_to_json module qualname self
  | _, _ => convert_fallback rt fuel v
  end.

(** *** Symbol resolution in the words of the specification *)

Definition starts_upper (segment : string) : bool :=
  match segment with
  | String c _ => isupper c
  | EmptyString => false
  end.

(** The first segment, of all of them, whose first character is
    upper-case. *)
Fixpoint first_upper_segment (i : nat) (segments : list string)
    : option nat :=
  match segments with
  | [] => None
  | segment :: rest =>
      if starts_upper segment then Some i
      else first_upper_segment (S i) rest
  end.

(** The module path and the attribute chain: the chain starts at that
    segment and runs to the final one; with no such segment only the final
    one is looked up. *)
Definition spec_split (segments : list string) : list string * list string :=
  match first_upper_segment 0 segments with
  | Some i => (firstn i segments, skipn i segments)
  | None => (removelast segments, [last segments EmptyString])
  end.

Definition spec_resolve (rt : runtime) (type_name : string) : M value :=
  let (module_path, chain) := spec_split (split_dot type_name) in
  module <- import_module rt (join_dot module_path) ;;
  getattr_chain rt module chain.

(** No entry, or an entry that is [None]. *)
Definition cache_miss (type_name : string) (s : pystate) : bool :=
  match dict_get type_name (LOADED_SYMBOLS s) with
  | Some v => is_none v
  | None => true
  end.

Definition nonempty (segment : string) : bool :=
  negb (String.eqb segment EmptyString).


(** The key [__init_subclass__] registers a class under. *)
Definition registration_name (cls : pyclass) : string :=
  match cls_type_name cls with
  | Some n => n
  | None => _type_name (cls_module cls) (cls_qualname cls)
  end.

(** *** Equality of signatures, in words *)

(** Two value specifications compare equal as fields of two arguments:
    they are the same object, or [==] says so. *)
Definition same_spec {VS : Type} `{ValueSpecOps VS} (x y : VS) : Prop :=
  vs_is x y = true \/ vs_eq x y = true.

(** Two arguments compare equal: same class, same name, equal value
    specifications. *)
Definition same_argument {VS : Type} `{ValueSpecOps VS}
    (a b : Argument VS) : Prop :=
  arg_class a = arg_class b
  /\ arg_name a = arg_name b
  /\ same_spec (arg_value_spec a) (arg_value_spec b).

(** Two elements of argument lists compare equal: the same object, or equal
    arguments. *)
Definition same_element {VS : Type} `{ValueSpecOps VS}
    (a b : Argument VS) : Prop :=
  arg_id a = arg_id b \/ same_argument a b.

(** Two starred slots compare equal: both empty, or equal arguments. *)
Definition same_slot {VS : Type} `{ValueSpecOps VS}
    (a b : option (Argument VS)) : Prop :=
  match a, b with
  | None, None => True
  | Some x, Some y => same_argument x y
  | _, _ => False
  end.

(** Two return value specifications compare equal: both absent, or [==]
    says so (between one and [None], the specification answers). *)
Definition same_return {VS : Type} `{ValueSpecOps VS} (a b : option VS)
    : Prop :=
  match a, b with
  | None, None => True
  | Some x, Some y => vs_eq x y = true
  | Some x, None => vs_eq_none x = true
  | None, Some y => vs_eq_none y = true
  end.

(** *** The text of one generated parameter *)

(** The entry [make_function] emits for the argument [n]: the prefix and the
    name, the annotation when there is one, the default when [defaulted]. *)
Definition arg_text {VS : Type} `{ValueSpecOps VS} (prefix n : string)
    (spec : VS) (defaulted : bool) : string :=
  let s := (prefix ++ n)%string in
  let s := match vs_annotation spec with
           | Some _ => (s ++ ": _annotation_" ++ n)%string
           | None => s
           end in
  if defaulted then (s ++ " = _default_" ++ n)%string else s.

(** The entries of the positional arguments, given whether an earlier one
    had a default. *)
Fixpoint positional_texts {VS : Type} `{ValueSpecOps VS}
    (l : list (Argument VS)) (has_previous_default : bool) : list string :=
  match l with
  | [] => []
  | arg :: rest =>
      arg_text "" (arg_name arg) (arg_value_spec arg)
               (has_previous_default || vs_has_default (arg_value_spec arg))
      :: positional_texts rest
           (if vs_has_default (arg_value_spec arg) then true
            else has_previous_default)
  end.

(* ================================================================== *)
(** ** The remaining helpers of the two modules *)

(** [json_dict[k] = v] on the items of a dictionary, for a string key: an
    existing key keeps its place, a new one goes last. *)
Fixpoint items_set (k : string) (v : value) (items : list (value * value))
    : list (value * value) :=
  match items with
  | [] => [(vstr k, v)]
  | (k', v') :: t =>
      if str_equals k' k then (k', v) :: t else (k', v') :: items_set k v t
  end.

(** [json_dict.update(d)] *)
Fixpoint items_update (items : list (value * value))
    (d : list (string * value)) : list (value * value) :=
  match d with
  | [] => items
  | (k, v) :: t => items_update (items_set k v items) t
  end.

(** The classmethod [JSONConvertible.to_json_dict]; [fields] is a
    dictionary with string keys. *)
Definition to_json_dict (rt : runtime) (fuel : nat) (cls : pyclass)
    (fields : list (string * value)) (kw : kwargs) : M value :=
  let json_dict :=
    [(vstr TYPE_NAME_KEY,
      vstr (_type_name (cls_module cls) (cls_qualname cls)))] in
  l <- mapM (fun kv : string * value =>
               let (k, x) := kv in
               y <- to_json rt fuel x kw ;; ret (k, y)) fields ;;
  ret (vdict (items_update json_dict l)).

(** The module-level [registered_types]. *)
Definition registered_types : M (list (string * pyclass)) :=
  JSONConvertible.registered_types.

(** [Signature.id] *)
Definition Signature_id {VS : Type} `{ValueSpecOps VS} (self : Signature VS)
    : string :=
  _type_name (module_name self) (qualname self).

(** [Signature.has_wildcard_args] *)
Definition has_wildcard_args {VS : Type} `{ValueSpecOps VS}
    (self : Signature VS) : bool :=
  has_varargs self || has_varkw self.

(** [Argument.from_annotation]; [None] stands for
    [inspect.Parameter.empty], and the flag of [from_annotation] keeps its
    default. *)
Definition Argument_from_annotation {VS : Type} `{ValueSpecOps VS}
    (id : nat) (n : string) (annotation : option value) : Argument VS :=
  mkArgument id Argument_class n (vs_from_annotation annotation false).

(** The module-level [get_signature]. *)
Definition get_signature {VS : Type} `{ValueSpecOps VS} (id : nat)
    (func : callable_object) : result (Signature VS) :=
  from_callable id func.

(** *** Vocabulary for the parameter lists *)

Definition is_positional (param : inspect_Parameter) : bool :=
  match param_kind param with
  | POSITIONAL_ONLY | POSITIONAL_OR_KEYWORD => true
  | _ => false
  end.

Definition is_keyword_only (param : inspect_Parameter) : bool :=
  match param_kind param with KEYWORD_ONLY => true | _ => false end.

Definition is_var_positional (param : inspect_Parameter) : bool :=
  match param_kind param with VAR_POSITIONAL => true | _ => false end.

Definition is_var_keyword (param : inspect_Parameter) : bool :=
  match param_kind param with VAR_KEYWORD => true | _ => false end.

(** The entry between the positional and the keyword-only arguments: the
    starred argument, or a bare star when there are keyword-only arguments
    and no starred one. *)
Definition star_texts {VS : Type} `{ValueSpecOps VS} (self : Signature VS)
    : list string :=
  match varargs self with
  | Some va => [arg_text "*" (arg_name va) (arg_value_spec va) false]
  | None => match kwonlyargs self with [] => [] | _ :: _ => ["*"] end
  end.

Definition kwonly_texts {VS : Type} `{ValueSpecOps VS}
    (l : list (Argument VS)) : list string :=
  map (fun a => arg_text "" (arg_name a) (arg_value_spec a)
                         (vs_has_default (arg_value_spec a))) l.

Definition varkw_texts {VS : Type} `{ValueSpecOps VS} (self : Signature VS)
    : list string :=
  match varkw self with
  | Some kw => [arg_text "**" (arg_name kw) (arg_value_spec kw) false]
  | None => []
  end.

(** Every argument of a signature, in the order [make_function] visits
    them. *)
Definition all_arguments {VS : Type} `{ValueSpecOps VS} (self : Signature VS)
    : list (Argument VS) :=
  args self
  ++ match varargs self with Some va => [va] | None => [] end
  ++ kwonlyargs self
  ++ match varkw self with Some kw => [kw] | None => [] end.

(** The names [make_function] may bind for an argument called [n]. *)
Definition bound_for (n : string) (k : string) : bool :=
  String.eqb k ("_annotation_" ++ n) || String.eqb k ("_default_" ++ n).

(** A function must carry its code in JSON, and its defaults are what a
    function object can have: [None] or a tuple. *)
Definition is_defaults (d : value) : bool :=
  match d with VNone | VTuple _ _ => true | _ => false end.

(** The codec gives a code object back: unmarshal of base64-decode of the
    encoded text is the code object. *)
Definition codec_round_trips (rt : runtime) (code : code_obj) : Prop :=
  exists blob raw,
    utf8_decode rt (base64_encodebytes rt (marshal_dumps rt code)) = Ok blob
    /\ base64_decodebytes rt (utf8_encode rt blob) = Ok raw
    /\ marshal_loads rt raw = Ok code.

(** The reserved values of ['_type']. *)
Definition reserved_type_name (n : string) : bool :=
  String.eqb n "type" || String.eqb n "function" || String.eqb n "method".

(* ================================================================== *)
(** ** A small world for the examples *)

Definition initial_state : pystate := mkState TypeRegistry.init [].

(** Three convertible classes: a plain one, one that names itself through
    [type_name], and one that derives from [tuple] as well. *)
Definition Point : pyclass :=
  mkClass 100 "geometry" "Point" true false true None.
Definition Circle : pyclass :=
  mkClass 101 "geometry" "Circle" true false true (Some "circle").
Definition Pair : pyclass :=
  mkClass 102 "geometry" "Pair" true false true None.

(** The code of [lambda x: x + 1] inside a function: OPTIMIZED, NEWLOCALS
    and NESTED. *)
Definition lambda_code : code_obj :=
  mkCode 19 "<lambda>" "f.<locals>.<lambda>" [] 1.

Definition small_getattr (parent : value) (n : string) : M value :=
  match parent with
  | VModule "builtins" =>
      if String.eqb n "len" then ret (VBuiltin "len") else raise AttributeError
  | VModule "geometry" =>
      if String.eqb n "Point" then ret (vtype Point)
      else if String.eqb n "Circle" then ret (vtype Circle)
      else raise AttributeError
  | _ => raise AttributeError
  end.

(** The code of [def inner(x): return x + offset] inside a function that
    binds [offset]: it has a free variable. *)
Definition closure_code : code_obj :=
  mkCode 19 "inner" "f.<locals>.inner" ["offset"] 2.

(** [marshal] and [base64] for these two code objects: the dump of the
    first is the byte [c], whose base64 text is ["Yw=="] and a line feed;
    the dump of the second is the byte [d], with the text ["ZA=="]. *)
Definition lambda_dump : bytes := [Byte.x63].

Definition lambda_blob : string := "Yw==" ++ String "010"%char EmptyString.

Definition closure_dump : bytes := [Byte.x64].

Definition closure_blob : string := "ZA==" ++ String "010"%char EmptyString.

Definition bytes_are (b : bytes) (s : string) : bool :=
  String.eqb (string_of_list_byte b) s.

Definition small_runtime : runtime :=
  {| import_module := fun n =>
       if String.eqb n "builtins" || String.eqb n "geometry"
       then ret (VModule n) else raise ImportError;
     getattr := small_getattr;
     method_to_json := fun v _ =>
       ret (vdict [(vstr TYPE_NAME_KEY,
                    vstr (registration_name (type_of v)))]);
     TYPE_CONVERTER := None;
     class_from_json := fun _ => None;
     class_call := fun c _ => ret (VObject c 0);
     marshal_dumps := fun code =>
       if Nat.eqb (co_body code) 2 then closure_dump else lambda_dump;
     marshal_loads := fun b =>
       if bytes_are b "c" then Ok lambda_code
       else if bytes_are b "d" then Ok closure_code
       else Raise (OtherError "EOFError");
     base64_encodebytes := fun b =>
       if bytes_are b "c" then list_byte_of_string lambda_blob
       else if bytes_are b "d" then list_byte_of_string closure_blob
       else [];
     base64_decodebytes := fun b =>
       if bytes_are b lambda_blob then Ok lambda_dump
       else if bytes_are b closure_blob then Ok closure_dump
       else Raise (OtherError "binascii.Error");
     utf8_decode := fun b => Ok (string_of_list_byte b);
     utf8_encode := list_byte_of_string |}.

(** A lambda defined inside a function [f] of a module [__main__] that also
    binds [helper]. *)
Definition a_lambda : value :=
  VFunction (mkFunc "__main__" "f.<locals>.<lambda>" "<lambda>" lambda_code
                    ["__name__"; "f"; "helper"]) VNone.

(** A function defined inside [f] that closes over a variable of [f]. *)
Definition a_closure : value :=
  VFunction (mkFunc "__main__" "f.<locals>.inner" "inner" closure_code
                    ["__name__"; "f"; "helper"]) VNone.

(** A value specification with an optional annotation and an optional
    integer default. *)
Record simple_spec : Type := mkSpec {
  ss_id : nat;
  ss_kind : string;
  ss_annotated : bool;
  ss_default : option Z
}.

Definition MISSING_VALUE : value :=
  VObject (mkClass 50 "pyglove.core.object_utils" "MissingValue"
                   false false false None) 0.

Definition opt_Z_eqb (a b : option Z) : bool :=
  match a, b with
  | Some x, Some y => Z.eqb x y
  | None, None => true
  | _, _ => false
  end.

#[export] Instance simple_spec_ops : ValueSpecOps simple_spec :=
  {| vs_annotation := fun s =>
       if ss_annotated s then Some (vtype (builtin_class 2 "int")) else None;
     vs_has_default := fun s =>
       match ss_default s with Some _ => true | None => false end;
     vs_default := fun s =>
       match ss_default s with Some z => vint z | None => MISSING_VALUE end;
     vs_is := fun a b => Nat.eqb (ss_id a) (ss_id b);
     vs_eq := fun a b =>
       String.eqb (ss_kind a) (ss_kind b)
       && Bool.eqb (ss_annotated a) (ss_annotated b)
       && opt_Z_eqb (ss_default a) (ss_default b);
     vs_eq_none := fun _ => false;
     vs_from_annotation_raises := fun a _ =>
       match a with
       | Some (VModule _) => Some TypeError
       | _ => None
       end;
     vs_set_default_raises := fun _ _ => None;
     vs_from_annotation := fun a accept_value =>
       match a with
       | Some (VInt _ _) =>
           if accept_value then mkSpec 0 "Int" true None
           else mkSpec 0 "Object" true None
       | Some _ => mkSpec 0 "Object" true None
       | None => mkSpec 0 "Any" false None
       end;
     vs_set_default := fun s d =>
       match d with
       | VInt _ z => mkSpec (ss_id s) (ss_kind s) (ss_annotated s) (Some z)
       | _ => s
       end |}.

(** [def f(a, b=2, *c, d, **e)], as [inspect] shows it. *)
Definition f_routine : routine :=
  mkRoutine "f" (Some "__main__") "f" false None
    [ mkParameter "a" POSITIONAL_OR_KEYWORD None None;
      mkParameter "b" POSITIONAL_OR_KEYWORD (Some (vint 2)) None;
      mkParameter "c" VAR_POSITIONAL None None;
      mkParameter "d" KEYWORD_ONLY None None;
      mkParameter "e" VAR_KEYWORD None None ].

(* ================================================================== *)
(** * Properties *)

Unset Implicit Arguments.

(** ** Dictionaries *)

Lemma dict_get_set_same (V : Type) (k : string) (v : V) (d : strdict V) :
  dict_get k (dict_set k v d) = Some v.
Proof.
  induction d as [|[k' v'] d IH]; simpl.
  - now rewrite String.eqb_refl.
  - destruct (String.eqb k' k) eqn:E; simpl; rewrite E; auto.
Qed.

Lemma dict_get_set_other (V : Type) (k k' : string) (v : V) (d : strdict V) :
  k' <> k -> dict_get k' (dict_set k v d) = dict_get k' d.
Proof.
  intros Hne. induction d as [|[k0 v0] d IH]; simpl.
  - destruct (String.eqb k k') eqn:E; auto.
    apply String.eqb_eq in E. congruence.
  - destruct (String.eqb k0 k) eqn:E; simpl.
    + apply String.eqb_eq in E. subst k0.
      destruct (String.eqb k k') eqn:E'; auto.
      apply String.eqb_eq in E'. congruence.
    + now rewrite IH.
Qed.

Lemma dict_contains_get (V : Type) (k : string) (d : strdict V) :
  dict_contains k d = true <-> exists v, dict_get k d = Some v.
Proof.
  unfold dict_contains. destruct (dict_get k d).
  - split; eauto.
  - split; [discriminate | intros [v Hv]; discriminate].
Qed.

(** ** The type registry *)

(** C2. Registering a type name that is already bound raises [KeyError] and
    leaves the state as it was when [override_existing] is false; when it is
    true the call succeeds, a later [class_from_typename] returns the new
    class, and the other names keep their classes. *)
Theorem register_conflict_or_override :
  forall (type_name : string) (cls old : pyclass) (s : pystate),
    JSONConvertible.class_from_typename type_name s = (Ok (Some old), s) ->
    JSONConvertible.register type_name cls false s = (Raise KeyError, s)
    /\ exists s',
         JSONConvertible.register type_name cls true s = (Ok tt, s')
         /\ JSONConvertible.class_from_typename type_name s'
            = (Ok (Some cls), s')
         /\ forall other, other <> type_name ->
              JSONConvertible.class_from_typename other s'
              = (fst (JSONConvertible.class_from_typename other s), s').
Proof.
  intros type_name cls old [reg cache] Hold.
  unfold JSONConvertible.class_from_typename,
         TypeRegistry.class_from_typename in *.
  simpl in *. injection Hold as Hold.
  unfold JSONConvertible.register, TypeRegistry.register; simpl.
  assert (Hc : dict_contains type_name reg = true)
    by (apply dict_contains_get; eauto).
  rewrite Hc. simpl. split; [reflexivity|].
  eexists. split; [reflexivity|]. simpl. split.
  - now rewrite dict_get_set_same.
  - intros other Hne. now rewrite dict_get_set_other.
Qed.

Lemma register_conflict_or_override_witness :
  JSONConvertible.register "circle" Point false
    (mkState [("circle", Circle)] []) 
  = (Raise KeyError, mkState [("circle", Circle)] []).
Proof.
  exact (proj1 (register_conflict_or_override "circle" Point Circle
                  (mkState [("circle", Circle)] []) eq_refl)).
Defined.

(** C6, as the claim has it, fails: a concrete class that does not opt out
    and defines [type_name] is registered under that name, and its
    fully-qualified name stays unbound. *)
Lemma init_subclass_qualified_name_counterexample :
  cls_abstract Circle = false
  /\ cls_auto_register Circle = true
  /\ exists s',
       JSONConvertible.__init_subclass__ Circle initial_state = (Ok tt, s')
       /\ JSONConvertible.is_registered
            (_type_name (cls_module Circle) (cls_qualname Circle)) s'
          = (Ok false, s')
       /\ JSONConvertible.class_from_typename "circle" s'
          = (Ok (Some Circle), s').
Proof.
  split; [reflexivity|]. split; [reflexivity|].
  eexists. split; [vm_compute; reflexivity|]. split; reflexivity.
Qed.

(** C6, amended. Defining a concrete class that does not opt out registers
    it under its [type_name] attribute when it has one, and under its
    fully-qualified dotted name otherwise; an abstract class or one that
    opts out changes nothing; and whenever [register] changes or fails to
    keep the class bound to a name, [override_existing] was true. *)
Theorem init_subclass_registers :
  forall (cls : pyclass) (s : pystate),
    (cls_abstract cls = false -> cls_auto_register cls = true ->
     exists s',
       JSONConvertible.__init_subclass__ cls s = (Ok tt, s')
       /\ JSONConvertible.class_from_typename (registration_name cls) s'
          = (Ok (Some cls), s')
       /\ (cls_type_name cls = None ->
           registration_name cls
           = _type_name (cls_module cls) (cls_qualname cls))
       /\ forall other, other <> registration_name cls ->
            JSONConvertible.class_from_typename other s'
            = (fst (JSONConvertible.class_from_typename other s), s'))
    /\ (cls_abstract cls = true \/ cls_auto_register cls = false ->
        JSONConvertible.__init_subclass__ cls s = (Ok tt, s))
    /\ (forall type_name c override_existing r s' k bound,
          JSONConvertible.register type_name c override_existing s = (r, s') ->
          TypeRegistry.class_from_typename k (TYPE_REGISTRY s) = Some bound ->
          TypeRegistry.class_from_typename k (TYPE_REGISTRY s') <> Some bound ->
          override_existing = true).
Proof.
  intros cls [reg cache]. split; [|split].
  - intros Habs Hauto.
    unfold JSONConvertible.__init_subclass__. rewrite Habs, Hauto. simpl.
    fold (registration_name cls).
    unfold JSONConvertible.register, TypeRegistry.register. simpl.
    rewrite andb_false_r. eexists. split; [reflexivity|].
    unfold JSONConvertible.class_from_typename,
           TypeRegistry.class_from_typename. simpl.
    split; [now rewrite dict_get_set_same|]. split.
    + intros Hn. unfold registration_name. now rewrite Hn.
    + intros other Hne. now rewrite dict_get_set_other.
  - intros [Habs|Hauto]; unfold JSONConvertible.__init_subclass__.
    + now rewrite Habs.
    + rewrite Hauto. now rewrite andb_false_r.
  - intros type_name c ov r s' k bound Hreg Hbefore Hafter.
    unfold JSONConvertible.register, TypeRegistry.register in Hreg.
    simpl in *. destruct ov; [reflexivity|]. exfalso.
    rewrite andb_true_r in Hreg.
    destruct (dict_contains type_name reg) eqn:Hc.
    + injection Hreg as _ Hs. subst s'. simpl in Hafter. auto.
    + injection Hreg as _ Hs. subst s'. simpl in Hafter.
      unfold TypeRegistry.class_from_typename in *.
      destruct (String.eqb k type_name) eqn:E.
      * apply String.eqb_eq in E. subst k.
        unfold dict_contains in Hc. rewrite Hbefore in Hc. discriminate.
      * apply String.eqb_neq in E.
        rewrite dict_get_set_other in Hafter by assumption. auto.
Qed.

Lemma init_subclass_registers_witness :
  exists s',
    JSONConvertible.__init_subclass__ Point initial_state = (Ok tt, s')
    /\ JSONConvertible.class_from_typename (registration_name Point) s'
       = (Ok (Some Point), s')
    /\ (cls_type_name Point = None ->
        registration_name Point
        = _type_name (cls_module Point) (cls_qualname Point))
    /\ forall other, other <> registration_name Point ->
         JSONConvertible.class_from_typename other s'
         = (fst (JSONConvertible.class_from_typename other initial_state), s').
Proof.
  exact (proj1 (init_subclass_registers Point initial_state)
               eq_refl eq_refl).
Defined.

(** ** [to_json]: the order of the branches *)

Lemma to_json_unfold (rt : runtime) (fuel : nat) (v : value) (kw : kwargs) :
  to_json rt fuel v kw =
  if isinstance_primitive v then ret v
  else if isinstance_convertible v then method_to_json rt v kw
  else
    match v with
    | VTuple _ _ => branch rt fuel CTuple v kw
    | VList _ _ => branch rt fuel CList v kw
    | VDict _ _ => branch rt fuel CDict v kw
    | VType _ _ => branch rt fuel CType v kw
    | VBuiltin _ => branch rt fuel CBuiltin v kw
    | VFunction _ _ => branch rt fuel CFunction v kw
    | VMethod _ _ _ => branch rt fuel CMethod v kw
    | _ => convert_fallback rt fuel v
    end.
Proof.
  destruct fuel; destruct v; reflexivity.
Qed.

Ltac first_match pre c post :=
  exists pre, c, post;
  split; [reflexivity|];
  split; [simpl; auto|];
  split; [simpl; intros c' Hin;
          repeat (destruct Hin as [<-|Hin]; [simpl; auto|]); contradiction|].

(** C3. [to_json] takes the branch of the first category, in the order
    primitives, convertible objects, tuple, list, dict, type, builtin
    function, plain function, method, fallback, that the value belongs to:
    the categories after it have no say, whether the value belongs to them
    or not. *)
Theorem to_json_precedence :
  forall (rt : runtime) (fuel : nat) (v : value) (kw : kwargs),
  exists (pre : list category) (c : category) (post : list category),
    precedence = pre ++ c :: post
    /\ matches c v = true
    /\ (forall c', In c' pre -> matches c' v = false)
    /\ to_json rt fuel v kw = branch rt fuel c v kw.
Proof.
  intros rt fuel v kw. rewrite to_json_unfold.
  destruct (isinstance_primitive v) eqn:Hp.
  { first_match (@nil category) CPrimitive (tl precedence). reflexivity. }
  destruct (isinstance_convertible v) eqn:Hc.
  { first_match (firstn 1 precedence) CConvertible (skipn 2 precedence).
    reflexivity. }
  destruct v; try discriminate Hp.
  - first_match (firstn 2 precedence) CTuple (skipn 3 precedence).
    reflexivity.
  - first_match (firstn 3 precedence) CList (skipn 4 precedence).
    reflexivity.
  - first_match (firstn 4 precedence) CDict (skipn 5 precedence).
    reflexivity.
  - first_match (firstn 5 precedence) CType (skipn 6 precedence).
    reflexivity.
  - first_match (firstn 9 precedence) CFallback (@nil category).
    reflexivity.
  - first_match (firstn 6 precedence) CBuiltin (skipn 7 precedence).
    reflexivity.
  - first_match (firstn 7 precedence) CFunction (skipn 8 precedence).
    reflexivity.
  - first_match (firstn 8 precedence) CMethod (skipn 9 precedence).
    reflexivity.
  - first_match (firstn 9 precedence) CFallback (@nil category).
    reflexivity.
Qed.

Example convertible_str_is_a_primitive_first :
  forall s,
    to_json small_runtime 0 (VStr (Subclass Point) "p") [] s
    = (Ok (VStr (Subclass Point) "p"), s).
Proof. reflexivity. Qed.

Example convertible_tuple_takes_the_earlier_branch :
  forall s,
    to_json small_runtime 0 (VTuple (Subclass Pair) [vint 1; vint 2]) [] s
    = (Ok (vdict [(vstr "_type", vstr "geometry.Pair")]), s).
Proof. reflexivity. Qed.

(** ** Comprehensions *)

Lemma mapM_ok_inv {A B : Type} (f : A -> M B) :
  forall (l : list A) (s s' : pystate) (r : list B),
    mapM f l s = (Ok r, s') ->
    Forall2 (fun x y => exists s1 s2, f x s1 = (Ok y, s2)) l r.
Proof.
  induction l as [|x t IH]; intros s s' r Hr; simpl in Hr.
  - unfold ret in Hr. injection Hr as <- _. constructor.
  - unfold bind in Hr at 1.
    destruct (f x s) as [[y|e] s1] eqn:Hx; [|discriminate].
    unfold bind in Hr at 1.
    destruct (mapM f t s1) as [[ys|e] s2] eqn:Ht; [|discriminate].
    unfold ret in Hr. injection Hr as <- _.
    constructor; eauto.
Qed.

(** ** [to_json] on a dictionary *)

(** C9. A dictionary is serialised value by value, in order, into a plain
    dictionary: the keys are the same objects in the same order, whatever
    they are (nothing looks at them), and each is mapped to the
    serialisation of its value.  The same holds for an instance of a class
    derived from [dict], unless it is a convertible object, which the
    earlier branch takes. *)
Theorem to_json_dict_keeps_keys :
  forall (rt : runtime) (fuel : nat) (items : list (value * value))
         (kw : kwargs),
    to_json rt fuel (vdict items) kw
    = (l <- mapM (fun kv : value * value =>
                    let (k, x) := kv in
                    y <- to_json rt fuel x kw ;; ret (k, y)) items ;;
       ret (vdict l))
    /\ (forall t,
          isinstance_convertible (VDict t items) = false ->
          to_json rt fuel (VDict t items) kw
          = to_json rt fuel (vdict items) kw)
    /\ (forall s r s',
          to_json rt fuel (vdict items) kw s = (Ok r, s') ->
          exists l,
            r = vdict l
            /\ map fst l = map fst items
            /\ Forall2 (fun kv kv' =>
                          exists s1 s2,
                            to_json rt fuel (snd kv) kw s1
                            = (Ok (snd kv'), s2)) items l).
Proof.
  intros rt fuel items kw.
  assert (Heq : to_json rt fuel (vdict items) kw
                = (l <- mapM (fun kv : value * value =>
                                let (k, x) := kv in
                                y <- to_json rt fuel x kw ;; ret (k, y))
                             items ;;
                   ret (vdict l))).
  { unfold vdict. rewrite to_json_unfold. reflexivity. }
  split; [exact Heq|]. split.
  { intros t Hc. rewrite Heq, to_json_unfold. simpl isinstance_primitive.
    cbv iota. rewrite Hc. reflexivity. }
  intros s r s' Hr. rewrite Heq in Hr. unfold bind in Hr at 1.
  match type of Hr with
  | context [mapM ?f items s] =>
      destruct (mapM f items s) as [[l|e] s1] eqn:Hl; [|discriminate]
  end.
  unfold ret in Hr. injection Hr as <- _.
  exists l. split; [reflexivity|].
  apply mapM_ok_inv in Hl. clear Heq.
  induction Hl as [|[k x] [k' y] items' l' Hxy Hrest IH].
  - split; constructor.
  - destruct Hxy as (s1' & s2' & Hxy). unfold bind in Hxy.
    destruct (to_json rt fuel x kw s1') as [[y'|e] s3] eqn:Hx;
      [|discriminate].
    unfold ret in Hxy. injection Hxy as <- <- _.
    destruct IH as [IHk IHv]. split.
    + simpl. now rewrite IHk.
    + constructor; [simpl; eauto | exact IHv].
Qed.

Lemma to_json_dict_keeps_keys_witness :
  to_json small_runtime 0
    (vdict [(vint 1, vstr "one"); (VNone, vtuple [VBool true])]) []
    initial_state
  = (Ok (vdict [(vint 1, vstr "one");
                (VNone, vlist [vstr "__tuple__"; VBool true])]),
     initial_state).
Proof.
  exact (f_equal (fun m => m initial_state)
           (proj1 (to_json_dict_keeps_keys small_runtime 0
                     [(vint 1, vstr "one"); (VNone, vtuple [VBool true])]
                     []))).
Defined.

(** ** The default [from_json] classmethod *)

(** The comprehension with its filter is the comprehension over the items
    that pass the filter. *)
Lemma init_args_of_filter (f : value -> M value) :
  forall (items : list (value * value)) (s : pystate),
    init_args_of f items s
    = mapM (fun kv : value * value =>
              let (k, x) := kv in y <- f x ;; ret (k, y))
           (filter (fun kv => negb (str_equals (fst kv) TYPE_NAME_KEY)) items)
           s.
Proof.
  induction items as [|[k x] t IH]; intros s; simpl; [reflexivity|].
  destruct (str_equals k TYPE_NAME_KEY); simpl.
  - apply IH.
  - unfold bind. destruct (f x s) as [[y|e] s1]; [|reflexivity].
    rewrite IH. unfold ret. reflexivity.
Qed.

(** C10. The default classmethod asks for a dictionary (anything else
    fails its assertion), ignores the keyword flags, and calls the class
    with one keyword per key other than ['_type'], bound to the
    deserialised value of that key. *)
Theorem default_from_json_builds_init_args :
  forall (rt : runtime) (cls : pyclass) (json_value : value) (kw : kwargs)
         (s : pystate),
    (forall kw',
       JSONConvertible_from_json rt (from_json rt) cls json_value kw s
       = JSONConvertible_from_json rt (from_json rt) cls json_value kw' s)
    /\ (isinstance_dict json_value = false ->
        JSONConvertible_from_json rt (from_json rt) cls json_value kw s
        = (Raise AssertionError, s))
    /\ (forall t items,
          json_value = VDict t items ->
          JSONConvertible_from_json rt (from_json rt) cls json_value kw s
          = (init_args <-
               mapM (fun kv : value * value =>
                       let (k, x) := kv in
                       y <- from_json rt x ;; ret (k, y))
                    (filter (fun kv =>
                               negb (str_equals (fst kv) TYPE_NAME_KEY))
                            items) ;;
             class_call rt cls init_args) s).
Proof.
  intros rt cls json_value kw s. split; [|split].
  - intros kw'. reflexivity.
  - intros Hd. destruct json_value; try reflexivity. discriminate Hd.
  - intros t items ->. simpl. unfold bind at 1 3.
    now rewrite init_args_of_filter.
Qed.

(** ** Induction on values, through the containers *)

Section ValueInduction.
Variable P : value -> Prop.
Hypothesis HNone : P VNone.
Hypothesis HBool : forall b, P (VBool b).
Hypothesis HInt : forall t n, P (VInt t n).
Hypothesis HFloat : forall t x, P (VFloat t x).
Hypothesis HStr : forall t s, P (VStr t s).
Hypothesis HTuple : forall t items, Forall P items -> P (VTuple t items).
Hypothesis HList : forall t items, Forall P items -> P (VList t items).
Hypothesis HDict :
  forall t items, Forall (fun kv => P (snd kv)) items -> P (VDict t items).
Hypothesis HType : forall t c, P (VType t c).
Hypothesis HModule : forall n, P (VModule n).
Hypothesis HBuiltin : forall n, P (VBuiltin n).
Hypothesis HFunction : forall f d, P d -> P (VFunction f d).
Hypothesis HMethod : forall m q self, P self -> P (VMethod m q self).
Hypothesis HObject : forall c st, P (VObject c st).

Fixpoint value_nested_ind (v : value) : P v :=
  match v with
  | VNone => HNone
  | VBool b => HBool b
  | VInt t n => HInt t n
  | VFloat t x => HFloat t x
  | VStr t s => HStr t s
  | VTuple t items =>
      HTuple t items
        ((fix all (l : list value) : Forall P l :=
            match l with
            | [] => Forall_nil P
            | x :: r => Forall_cons x (value_nested_ind x) (all r)
            end) items)
  | VList t items =>
      HList t items
        ((fix all (l : list value) : Forall P l :=
            match l with
            | [] => Forall_nil P
            | x :: r => Forall_cons x (value_nested_ind x) (all r)
            end) items)
  | VDict t items =>
      HDict t items
        ((fix all (l : list (value * value))
            : Forall (fun kv => P (snd kv)) l :=
            match l with
            | [] => Forall_nil _
            | kv :: r =>
                Forall_cons kv (value_nested_ind (snd kv)) (all r)
            end) items)
  | VType t c => HType t c
  | VModule n => HModule n
  | VBuiltin n => HBuiltin n
  | VFunction f d => HFunction f d (value_nested_ind d)
  | VMethod m q self => HMethod m q self (value_nested_ind self)
  | VObject c st => HObject c st
  end.
End ValueInduction.

(** ** Round trip *)

Lemma from_json_list (rt : runtime) (t : pytype) (items : list value) :
  from_json rt (VList t items) =
  if starts_with_marker items then
    if Nat.ltb (List.length items) 2 then raise ValueError
    else l <- mapM (from_json rt) (tl items) ;; ret (vtuple l)
  else l <- mapM (from_json rt) items ;; ret (vlist l).
Proof.
  destruct items as [|first [|second rest]]; simpl; try reflexivity;
    destruct (str_equals first TUPLE_MARKER); reflexivity.
Qed.

Lemma from_json_plain_dict (rt : runtime) (t : pytype)
    (items : list (value * value)) :
  dict_has_key TYPE_NAME_KEY items = false ->
  from_json rt (VDict t items) =
  (l <- mapM (fun kv : value * value =>
                let (k, x) := kv in
                y <- from_json rt x ;; ret (k, y)) items ;;
   ret (vdict l)).
Proof.
  intros Hk. simpl. now rewrite Hk.
Qed.

Section RoundTrip.
Variable rt : runtime.
Variable fuel : nat.
Variable kw : kwargs.

Lemma round_trips_items (items : list value) :
  Forall (round_trips rt fuel kw) items ->
  forallb plain_data items = true ->
  forallb unambiguous items = true ->
  exists js,
    (forall s, mapM (fun item => to_json rt fuel item kw) items s = (Ok js, s))
    /\ (forall s, mapM (from_json rt) js s = (Ok items, s))
    /\ starts_with_marker js = starts_with_marker items
    /\ List.length js = List.length items.
Proof.
  induction 1 as [|x t Hx Ht IH]; simpl; intros Hp Hu.
  - exists []. repeat split.
  - apply andb_prop in Hp as [Hpx Hpt]. apply andb_prop in Hu as [Hux Hut].
    destruct (Hx Hpx Hux) as (j & Hto & Hfrom & Hstr).
    destruct (IH Hpt Hut) as (js & Htos & Hfroms & _ & Hlen).
    exists (j :: js). repeat split.
    + intros s. unfold bind. rewrite Hto, Htos. reflexivity.
    + intros s. simpl. unfold bind. rewrite Hfrom, Hfroms. reflexivity.
    + simpl. apply Hstr.
    + simpl. now rewrite Hlen.
Qed.

Lemma round_trips_pairs (items : list (value * value)) :
  Forall (fun kv => round_trips rt fuel kw (snd kv)) items ->
  forallb (fun kv : value * value =>
             let (k, x) := kv in is_str k && plain_data x) items = true ->
  forallb (fun kv : value * value => unambiguous (snd kv)) items = true ->
  exists js,
    (forall s,
       mapM (fun kv : value * value =>
               let (k, x) := kv in
               y <- to_json rt fuel x kw ;; ret (k, y)) items s = (Ok js, s))
    /\ (forall s,
          mapM (fun kv : value * value =>
                  let (k, x) := kv in
                  y <- from_json rt x ;; ret (k, y)) js s = (Ok items, s))
    /\ map fst js = map fst items.
Proof.
  induction 1 as [|[k x] t Hx Ht IH]; simpl; intros Hp Hu.
  - exists []. repeat split.
  - apply andb_prop in Hp as [Hpx Hpt]. apply andb_prop in Hpx as [_ Hpx].
    apply andb_prop in Hu as [Hux Hut].
    destruct (Hx Hpx Hux) as (j & Hto & Hfrom & _).
    destruct (IH Hpt Hut) as (js & Htos & Hfroms & Hkeys).
    exists ((k, j) :: js). repeat split.
    + intros s. unfold bind. rewrite Hto. unfold ret at 1.
      rewrite Htos. reflexivity.
    + intros s. simpl. unfold bind. rewrite Hfrom. unfold ret at 1.
      rewrite Hfroms. reflexivity.
    + simpl. now rewrite Hkeys.
Qed.

Lemma dict_has_key_fst (key : string) (l1 l2 : list (value * value)) :
  map fst l1 = map fst l2 -> dict_has_key key l1 = dict_has_key key l2.
Proof.
  revert l2. induction l1 as [|[k x] t IH]; intros [|[k' x'] t'] Hm;
    try discriminate; [reflexivity|].
  simpl in *. injection Hm as -> Hm. now rewrite (IH t').
Qed.

Lemma round_trips_all (x : value) : round_trips rt fuel kw x.
Proof.
  induction x using value_nested_ind; unfold round_trips;
    try (intros _ _; eexists; repeat split;
         intros; rewrite ?to_json_unfold; reflexivity);
    try (intros Hp; discriminate Hp).
  - (* tuple *)
    intros Hp Hu. destruct t; [|discriminate Hp]. simpl in Hp, Hu.
    apply andb_prop in Hu as [Hne Hu].
    destruct (round_trips_items _ H Hp Hu) as (js & Hto & Hfrom & _ & Hlen).
    exists (vlist (vstr TUPLE_MARKER :: js)). repeat split.
    + intros s. rewrite to_json_unfold. simpl. unfold bind.
      rewrite Hto. reflexivity.
    + intros s. unfold vlist. rewrite from_json_list. simpl.
      destruct js as [|j js'].
      * destruct items; [discriminate Hne | discriminate Hlen].
      * simpl. unfold bind. specialize (Hfrom s). simpl in Hfrom.
        unfold bind in Hfrom. rewrite Hfrom. reflexivity.
  - (* list *)
    intros Hp Hu. destruct t; [|discriminate Hp]. simpl in Hp, Hu.
    apply andb_prop in Hu as [Hnm Hu].
    destruct (round_trips_items _ H Hp Hu) as (js & Hto & Hfrom & Hm & _).
    exists (vlist js). repeat split.
    + intros s. rewrite to_json_unfold. simpl. unfold bind.
      rewrite Hto. reflexivity.
    + intros s. unfold vlist. rewrite from_json_list. rewrite Hm.
      apply negb_true_iff in Hnm. rewrite Hnm. unfold bind.
      rewrite Hfrom. reflexivity.
  - (* dict *)
    intros Hp Hu. destruct t; [|discriminate Hp]. simpl in Hp, Hu.
    apply andb_prop in Hu as [Hnk Hu]. apply negb_true_iff in Hnk.
    destruct (round_trips_pairs _ H Hp Hu) as (js & Hto & Hfrom & Hkeys).
    exists (vdict js). repeat split.
    + intros s. rewrite to_json_unfold. simpl. unfold bind.
      rewrite Hto. reflexivity.
    + intros s. unfold vdict. rewrite from_json_plain_dict.
      * unfold bind. rewrite Hfrom. reflexivity.
      * now rewrite (dict_has_key_fst _ _ _ Hkeys).
Qed.

End RoundTrip.

(** C1, as the claim has it, fails on plain data of three shapes: a list
    whose first element is the string ['__tuple__'] comes back as a tuple
    without that element; the empty tuple is encoded as the bare marker,
    which [from_json] refuses; a dictionary with the key ['_type'] is read as
    a typed object. *)
Lemma round_trip_counterexample :
  plain_data (vlist [vstr "__tuple__"; vint 1]) = true
  /\ (j <- to_json small_runtime 0 (vlist [vstr "__tuple__"; vint 1]) [] ;;
      from_json small_runtime j) initial_state
     = (Ok (vtuple [vint 1]), initial_state)
  /\ plain_data (vtuple []) = true
  /\ (j <- to_json small_runtime 0 (vtuple []) [] ;;
      from_json small_runtime j) initial_state
     = (Raise ValueError, initial_state)
  /\ plain_data (vdict [(vstr "_type", vstr "color")]) = true
  /\ (j <- to_json small_runtime 0 (vdict [(vstr "_type", vstr "color")]) [] ;;
      from_json small_runtime j) initial_state
     = (Raise TypeError, initial_state).
Proof.
  repeat split.
Qed.

(** C1, amended. For plain data (primitives, and lists, tuples and
    string-keyed dictionaries of plain data) with no empty tuple, no list
    that starts with the string ['__tuple__'] and no dictionary with the key
    ['_type'], at any depth, [to_json] succeeds and [from_json] of its result
    gives the value back: the same primitives in containers of the same
    kinds, a tuple as a tuple and a list as a list.  Neither call touches
    the registry or the symbol cache. *)
Theorem round_trip_plain_data :
  forall (rt : runtime) (fuel : nat) (kw : kwargs) (x : value) (s : pystate),
    plain_data x = true ->
    unambiguous x = true ->
    exists j,
      to_json rt fuel x kw s = (Ok j, s)
      /\ from_json rt j s = (Ok x, s).
Proof.
  intros rt fuel kw x s Hp Hu.
  destruct (round_trips_all rt fuel kw x Hp Hu) as (j & Hto & Hfrom & _).
  exists j. auto.
Qed.

Lemma round_trip_plain_data_witness :
  exists j,
    to_json small_runtime 0
      (vtuple [vint 1; vlist []; vlist [vstr "a"; vstr "__tuple__"];
               vdict [(vstr "k", vtuple [VNone; VBool true])]]) []
      initial_state = (Ok j, initial_state)
    /\ from_json small_runtime j initial_state
       = (Ok (vtuple [vint 1; vlist []; vlist [vstr "a"; vstr "__tuple__"];
                      vdict [(vstr "k", vtuple [VNone; VBool true])]]),
          initial_state).
Proof.
  apply (round_trip_plain_data small_runtime 0 []
           (vtuple [vint 1; vlist []; vlist [vstr "a"; vstr "__tuple__"];
                    vdict [(vstr "k", vtuple [VNone; VBool true])]])
           initial_state); reflexivity.
Defined.

(** ** Functions from JSON *)

Lemma with_item_lookup {B : Type} (key : string) (present : value -> M B)
    (absent : M B) (items : list (value * value)) :
  with_item key present absent items
  = match dict_lookup key items with
    | Some x => present x
    | None => absent
    end.
Proof.
  induction items as [|[k x] t IH]; simpl; [reflexivity|].
  destruct (str_equals k key); [reflexivity | exact IH].
Qed.

Lemma dict_has_key_lookup (key : string) (items : list (value * value)) :
  dict_has_key key items
  = match dict_lookup key items with Some _ => true | None => false end.
Proof.
  induction items as [|[k x] t IH]; simpl; [reflexivity|].
  destruct (str_equals k key); [reflexivity | exact IH].
Qed.

Lemma str_equals_eq (v : value) (s : string) :
  str_equals v s = true -> exists t, v = VStr t s.
Proof.
  destruct v; simpl; try discriminate.
  intros E. apply String.eqb_eq in E. subst. eauto.
Qed.

(** C4, as the claim has it, fails: the function rebuilt from an embedded
    code blob is bound to [globals()] of [json_conversion], the namespace
    that holds [to_json] and the rest of that module, which is neither fresh
    nor empty (nor the namespace the function came from). *)
Lemma function_from_json_globals_counterexample :
  to_json small_runtime 0 a_lambda [] initial_state
  = (Ok (vdict [(vstr "_type", vstr "function");
                (vstr "name", vstr "__main__.f.<locals>.<lambda>");
                (vstr "code", vstr lambda_blob);
                (vstr "defaults", VNone)]),
     initial_state)
  /\ exists g,
       from_json small_runtime
         (vdict [(vstr "_type", vstr "function");
                 (vstr "name", vstr "__main__.f.<locals>.<lambda>");
                 (vstr "code", vstr lambda_blob);
                 (vstr "defaults", VNone)])
         initial_state
       = (Ok (VFunction g VNone), initial_state)
       /\ fn_code g = lambda_code
       /\ fn_globals g = module_globals
       /\ In "to_json" (fn_globals g)
       /\ fn_module g = json_conversion_module.
Proof.
  split; [reflexivity|].
  eexists. split; [vm_compute; reflexivity|].
  split; [reflexivity|]. split; [reflexivity|]. split; [|reflexivity].
  simpl. tauto.
Qed.

(** C4, amended. On a mapping whose ['_type'] is ["function"] and that has
    a ['name'] entry: with a ['code'] entry, [from_json] decodes the blob
    (base64, then unmarshal), deserialises the ['defaults'] entry, and builds
    the function on the global namespace of the [json_conversion] module
    itself; without one it resolves the dotted name. *)
Theorem function_from_json_code_or_name :
  forall (rt : runtime) (t : pytype) (items : list (value * value))
         (type_name function_name : value) (s : pystate),
    dict_lookup TYPE_NAME_KEY items = Some type_name ->
    str_equals type_name "function" = true ->
    dict_lookup "name" items = Some function_name ->
    from_json rt (VDict t items) s
    = match dict_lookup "code" items with
      | Some blob =>
          (code <- decode_code rt blob ;;
           defaults <- match dict_lookup "defaults" items with
                       | Some d => from_json rt d
                       | None => raise KeyError
                       end ;;
           FunctionType code module_globals json_conversion_module defaults) s
      | None => _load_symbol_of rt function_name s
      end.
Proof.
  intros rt t items type_name function_name s Ht Hf Hn.
  destruct (str_equals_eq _ _ Hf) as [t' ->].
  simpl from_json.
  rewrite dict_has_key_lookup, Ht. simpl negb. cbv iota.
  rewrite with_item_lookup, Ht. simpl.
  unfold _function_from_json.
  rewrite with_item_lookup, Hn.
  rewrite dict_has_key_lookup.
  destruct (dict_lookup "code" items) as [blob|] eqn:Hc; [|reflexivity].
  rewrite !with_item_lookup, Hc. reflexivity.
Qed.

Lemma function_from_json_code_or_name_witness :
  from_json small_runtime
    (vdict [(vstr "_type", vstr "function");
            (vstr "name", vstr "__main__.f.<locals>.<lambda>");
            (vstr "code", vstr lambda_blob);
            (vstr "defaults", VNone)])
    initial_state
  = (Ok (VFunction (mkFunc json_conversion_module "f.<locals>.<lambda>"
                           "<lambda>" lambda_code module_globals) VNone),
     initial_state).
Proof.
  exact (function_from_json_code_or_name small_runtime Exact
           [(vstr "_type", vstr "function");
            (vstr "name", vstr "__main__.f.<locals>.<lambda>");
            (vstr "code", vstr lambda_blob);
            (vstr "defaults", VNone)]
           (vstr "function") (vstr "__main__.f.<locals>.<lambda>")
           initial_state eq_refl eq_refl eq_refl).
Defined.

Example function_from_json_by_name :
  from_json small_runtime
    (vdict [(vstr "_type", vstr "function");
            (vstr "name", vstr "builtins.len")])
    initial_state
  = (Ok (VBuiltin "len"), mkState [] [("builtins.len", VBuiltin "len")]).
Proof. reflexivity. Qed.

(** ** Equality of signatures *)

Lemma CallableType_eqb_eq (a b : CallableType) :
  CallableType_eqb a b = true <-> a = b.
Proof.
  destruct a, b; simpl; split; congruence.
Qed.

Section SignatureEquality.
Context {VS : Type} {ops : ValueSpecOps VS}.

Lemma Argument_eq_same (a b : Argument VS) :
  Argument_eq a b = true <-> same_argument a b.
Proof.
  unfold Argument_eq, same_argument, same_spec, vs_equal.
  rewrite !andb_true_iff, orb_true_iff, Nat.eqb_eq, String.eqb_eq. tauto.
Qed.

Lemma Argument_equal_same (a b : Argument VS) :
  Argument_equal a b = true <-> same_element a b.
Proof.
  unfold Argument_equal, Argument_is, same_element.
  rewrite orb_true_iff, Nat.eqb_eq, Argument_eq_same. tauto.
Qed.

Lemma list_eq_same (l1 : list (Argument VS)) :
  forall l2, list_eq l1 l2 = true <-> Forall2 same_element l1 l2.
Proof.
  induction l1 as [|a t IH]; intros [|b t']; simpl.
  - split; [constructor | reflexivity].
  - split; [discriminate | intros H; inversion H].
  - split; [discriminate | intros H; inversion H].
  - rewrite andb_true_iff, Argument_equal_same, IH. split.
    + intros [Ha Ht]. now constructor.
    + intros H. inversion H; subst. auto.
Qed.

Lemma opt_arg_eq_same (a b : option (Argument VS)) :
  opt_arg_eq a b = true <-> same_slot a b.
Proof.
  destruct a as [x|], b as [y|]; simpl;
    try apply Argument_eq_same; split; auto; discriminate.
Qed.

Lemma opt_spec_eq_same (a b : option VS) :
  opt_spec_eq a b = true <-> same_return a b.
Proof.
  destruct a as [x|], b as [y|]; simpl; tauto.
Qed.

End SignatureEquality.

(** C5, as the claim has it, fails twice.  Two distinct signatures that
    agree on callable type, names, module and every argument list and slot,
    and differ in the return value specification only, are not equal.  And
    an instance of a subclass is unequal to an instance of [Signature]
    with the same fields when it is the one asked, though equal when the
    other one is. *)
Lemma signature_eq_return_value_counterexample :
  Signature_eq
    (mkSignature 1 Signature_class FUNCTION "f" "m"
                 [mkArgument 3 Argument_class "x" (mkSpec 5 "Any" false None)]
                 [] None None None "f")
    (ASignature
       (mkSignature 2 Signature_class FUNCTION "f" "m"
                    [mkArgument 4 Argument_class "x"
                                (mkSpec 6 "Any" false None)]
                    [] None None (Some (mkSpec 7 "Int" true None)) "f"))
  = false
  /\ Signature_eq
       (mkSignature 1 Signature_class FUNCTION "f" "m"
                    [mkArgument 3 Argument_class "x"
                                (mkSpec 5 "Any" false None)]
                    [] None None None "f")
       (ASignature
          (mkSignature 2 Signature_class FUNCTION "f" "m"
                       [mkArgument 4 Argument_class "x"
                                   (mkSpec 6 "Any" false None)]
                       [] None None None "f"))
     = true
  /\ Signature_eq
       (mkSignature 8 (mkSigClass 9 [0]) FUNCTION "f" "m" [] [] None None
                    None "f")
       (ASignature
          (mkSignature 2 Signature_class FUNCTION "f" "m" [] [] None None
                       None "f"))
     = false
  /\ Signature_eq
       (mkSignature 2 Signature_class FUNCTION "f" "m" [] [] None None
                    None "f")
       (ASignature
          (mkSignature 8 (mkSigClass 9 [0]) FUNCTION "f" "m" [] [] None None
                       None "f"))
     = true.
Proof.
  repeat split.
Qed.

(** C5, amended. [a.__eq__(b)] holds exactly when [b] is a signature whose
    class is the class of [a] or derives from it, and either [b] is the same
    object as [a], or callable type, name, qualified name and module name
    are equal, the positional and the keyword-only argument lists have the
    same length and compare equal element by element (the same object, or
    arguments of the same class with the same name and equal value
    specifications), the two starred slots compare equal (both empty, or
    such arguments), and the return value specifications compare equal. *)
Theorem signature_eq_iff :
  forall (VS : Type) (ops : ValueSpecOps VS) (self : Signature VS),
    (forall v, Signature_eq self (AnythingElse v) = false)
    /\ forall other : Signature VS,
         Signature_eq self (ASignature other) = true
         <-> (issubclass (sig_class other) (sig_class self) = true
              /\ (sig_id self = sig_id other
                  \/ (callable_type self = callable_type other
                      /\ name self = name other
                      /\ qualname self = qualname other
                      /\ module_name self = module_name other
                      /\ Forall2 same_element (args self) (args other)
                      /\ Forall2 same_element (kwonlyargs self)
                                 (kwonlyargs other)
                      /\ same_slot (varargs self) (varargs other)
                      /\ same_slot (varkw self) (varkw other)
                      /\ same_return (return_value self)
                                     (return_value other)))).
Proof.
  intros VS ops self. split; [reflexivity|].
  intros other. unfold Signature_eq.
  destruct (issubclass (sig_class other) (sig_class self)); simpl;
    [|split; [discriminate | intros [H _]; discriminate H]].
  destruct (Nat.eqb (sig_id self) (sig_id other)) eqn:Hid.
  - apply Nat.eqb_eq in Hid. tauto.
  - apply Nat.eqb_neq in Hid.
    rewrite !andb_true_iff, CallableType_eqb_eq, !String.eqb_eq,
            !list_eq_same, !opt_arg_eq_same, opt_spec_eq_same.
    tauto.
Qed.

(** ** Synthesis of a function *)

Section Synthesis.
Context {VS : Type} {ops : ValueSpecOps VS}.

Lemma fst_append_arg (n : string) (spec : VS) (force : bool) (prefix : string)
    (st : list string * strdict value) :
  fst (_append_arg n spec force prefix st)
  = fst st ++ [arg_text prefix n spec
                 (String.eqb prefix "" && (force || vs_has_default spec))].
Proof.
  destruct st as [acc loc]. unfold _append_arg, arg_text.
  destruct (vs_annotation spec);
    destruct (String.eqb prefix "" && (force || vs_has_default spec));
    reflexivity.
Qed.

Lemma fst_append_positional (l : list (Argument VS)) :
  forall (flag : bool) (st : list string * strdict value),
    fst (append_positional l flag st) = fst st ++ positional_texts l flag.
Proof.
  induction l as [|a r IH]; intros flag st; simpl.
  - now rewrite app_nil_r.
  - rewrite IH, fst_append_arg. simpl. now rewrite <- app_assoc.
Qed.

Lemma fst_append_kwonly (l : list (Argument VS)) :
  forall st : list string * strdict value,
    exists more, fst (append_kwonly l st) = fst st ++ more.
Proof.
  induction l as [|a r IH]; intros st; simpl.
  - exists []. now rewrite app_nil_r.
  - destruct (IH (_append_arg (arg_name a) (arg_value_spec a) false "" st))
      as [more Hm].
    rewrite Hm, fst_append_arg. rewrite <- app_assoc. eauto.
Qed.

(** The generated list starts with the positional entries. *)
Lemma build_args_positional (self : Signature VS) (loc : strdict value) :
  exists more,
    fst (build_args self loc) = positional_texts (args self) false ++ more.
Proof.
  unfold build_args.
  set (st0 := append_positional (args self) false ([], loc)).
  assert (H0 : fst st0 = positional_texts (args self) false)
    by (unfold st0; now rewrite fst_append_positional).
  set (st1 := match varargs self with
              | Some va => _ | None => _ end).
  assert (H1 : exists m1, fst st1 = fst st0 ++ m1).
  { unfold st1. destruct (varargs self) as [va|].
    - rewrite fst_append_arg. eauto.
    - destruct (kwonlyargs self); simpl; [exists []; now rewrite app_nil_r
                                          | eauto]. }
  destruct H1 as [m1 H1].
  destruct (fst_append_kwonly (kwonlyargs self) st1) as [m2 H2].
  destruct (varkw self) as [kw|].
  - rewrite fst_append_arg, H2, H1, H0. rewrite <- !app_assoc. eauto.
  - rewrite H2, H1, H0. rewrite <- !app_assoc. eauto.
Qed.

Lemma positional_texts_app (pre post : list (Argument VS)) :
  forall flag,
    positional_texts (pre ++ post) flag
    = positional_texts pre flag
      ++ positional_texts post
           (flag || existsb (fun a => vs_has_default (arg_value_spec a)) pre).
Proof.
  induction pre as [|a r IH]; intros flag; simpl.
  - now rewrite orb_false_r.
  - rewrite IH. f_equal. f_equal.
    destruct (vs_has_default (arg_value_spec a)), flag; reflexivity.
Qed.

Lemma positional_texts_length (l : list (Argument VS)) :
  forall flag, List.length (positional_texts l flag) = List.length l.
Proof.
  induction l as [|a r IH]; intros flag; simpl; [reflexivity|].
  now rewrite IH.
Qed.

Lemma positional_texts_forced (l : list (Argument VS)) :
  positional_texts l true
  = map (fun b => arg_text "" (arg_name b) (arg_value_spec b) true) l.
Proof.
  induction l as [|a r IH]; simpl; [reflexivity|].
  destruct (vs_has_default (arg_value_spec a)); now rewrite IH.
Qed.

End Synthesis.

(** C7. For the signature of [def f(a, b=2, *c, d, **e)], [make_function]
    emits the parameters in the order a, b with its default (bound to 2 in
    the local namespace), *c, d, **e, and the function it returns carries the
    name, module and qualified name of the signature.  For every signature,
    the positional arguments after one that has a default are all emitted
    with a default. *)
Theorem make_function_parameter_list :
  forall (VS : Type) (ops : ValueSpecOps VS),
    (forall (id : nat) (body : list string) (g l : option (strdict value)),
       vs_has_default (vs_from_annotation None false) = false ->
       vs_has_default
         (vs_set_default (vs_from_annotation (Some (vint 2)) true) (vint 2))
       = true ->
       vs_default
         (vs_set_default (vs_from_annotation (Some (vint 2)) true) (vint 2))
       = vint 2 ->
       let plain := vs_from_annotation None false in
       let with_2 :=
         vs_set_default (vs_from_annotation (Some (vint 2)) true) (vint 2) in
       let sig := signature_of_routine id f_routine in
       let fn := make_function sig body g l in
       syn_args fn
       = [ arg_text "" "a" plain false; arg_text "" "b" with_2 true;
           arg_text "*" "c" plain false; arg_text "" "d" plain false;
           arg_text "**" "e" plain false ]
       /\ dict_get "_default_b" (syn_locals fn) = Some (vint 2)
       /\ syn_body fn = body
       /\ syn_name fn = name sig
       /\ syn_module fn = module_name sig
       /\ syn_qualname fn = qualname sig)
    /\ (forall (self : Signature VS) (body : list string)
               (g l : option (strdict value))
               (pre post : list (Argument VS)) (a b : Argument VS) (i : nat),
          args self = pre ++ a :: post ->
          vs_has_default (arg_value_spec a) = true ->
          nth_error post i = Some b ->
          nth_error (syn_args (make_function self body g l))
                    (List.length pre + 1 + i)
          = Some (arg_text "" (arg_name b) (arg_value_spec b) true)).
Proof.
  intros VS ops. split.
  - intros id body g l Ha Hb Hd plain with_2 sig fn.
    subst fn sig. unfold make_function.
    destruct (build_args (signature_of_routine id f_routine) (or_else l []))
      as [texts loc] eqn:Hbuild.
    simpl. unfold build_args in Hbuild. simpl in Hbuild.
    unfold param_value_spec in Hbuild. simpl in Hbuild.
    fold plain in Hbuild. fold with_2 in Hbuild.
    unfold _append_arg in Hbuild. fold plain in Ha. fold with_2 in Hb, Hd.
    rewrite Ha, Hb, Hd in Hbuild. simpl in Hbuild.
    unfold arg_text.
    destruct (vs_annotation plain), (vs_annotation with_2);
      simpl in Hbuild; injection Hbuild as <- <-;
      (split; [reflexivity|]); (split; [|repeat split]);
      repeat (rewrite dict_get_set_other by discriminate);
      apply dict_get_set_same.
  - intros self body g l pre post a b i Hargs Ha Hb.
    unfold make_function.
    destruct (build_args self (or_else l [])) as [texts loc] eqn:Hbuild.
    simpl.
    destruct (build_args_positional self (or_else l [])) as [more Hm].
    rewrite Hbuild in Hm. simpl in Hm. subst texts.
    rewrite Hargs, positional_texts_app. simpl.
    rewrite Ha. rewrite orb_true_r. simpl.
    rewrite <- app_assoc.
    rewrite nth_error_app2; rewrite positional_texts_length; [|lia].
    replace (List.length pre + 1 + i - List.length pre) with (S i) by lia.
    simpl. rewrite positional_texts_forced.
    rewrite nth_error_app1.
    + rewrite nth_error_map, Hb. reflexivity.
    + rewrite length_map. apply nth_error_Some. congruence.
Qed.

Lemma make_function_parameter_list_witness :
  syn_args (make_function (signature_of_routine 0 f_routine)
                          ["return a"] None None)
  = [ "a"; "b: _annotation_b = _default_b"; "*c"; "d"; "**e" ]
  /\ dict_get "_default_b"
       (syn_locals (make_function (signature_of_routine 0 f_routine)
                                  ["return a"] None None))
     = Some (vint 2)
  /\ syn_body (make_function (signature_of_routine 0 f_routine)
                             ["return a"] None None) = ["return a"]
  /\ syn_name (make_function (signature_of_routine 0 f_routine)
                             ["return a"] None None) = "f"
  /\ syn_module (make_function (signature_of_routine 0 f_routine)
                               ["return a"] None None) = "__main__"
  /\ syn_qualname (make_function (signature_of_routine 0 f_routine)
                                 ["return a"] None None) = "f".
Proof.
  exact (proj1 (make_function_parameter_list simple_spec simple_spec_ops)
               0 ["return a"] None None eq_refl eq_refl eq_refl).
Defined.

(** ** The monad, pointwise *)

Lemma bind_assoc {A B C : Type} (m : M A) (f : A -> M B) (g : B -> M C)
    (s : pystate) :
  bind (bind m f) g s = bind m (fun a => bind (f a) g) s.
Proof.
  unfold bind. destruct (m s) as [[a|e] s1]; reflexivity.
Qed.

Lemma bind_ext {A B : Type} (m : M A) (f g : A -> M B) (s : pystate) :
  (forall a s', f a s' = g a s') -> bind m f s = bind m g s.
Proof.
  intros Hfg. unfold bind. destruct (m s) as [[a|e] s1]; auto.
Qed.

(** ** Symbol resolution *)

Lemma getattr_chain_app (rt : runtime) (l : list string) (x : string) :
  forall (parent : value) (s : pystate),
    getattr_chain rt parent (l ++ [x]) s
    = (p <- getattr_chain rt parent l ;; getattr rt p x) s.
Proof.
  induction l as [|n r IH]; intros parent s; simpl.
  - unfold bind, ret.
    destruct (getattr rt parent x s) as [[p|e] s1]; reflexivity.
  - rewrite bind_assoc. apply bind_ext. intros p s'. apply IH.
Qed.

Lemma unpack_last_app (l : list string) :
  forall init last,
    unpack_last l = Some (init, last) -> l = init ++ [last].
Proof.
  induction l as [|x t IH]; intros init last; [discriminate|].
  destruct t as [|y t'].
  - simpl. intros [= <- <-]. reflexivity.
  - change (unpack_last (x :: y :: t'))
      with (match unpack_last (y :: t') with
            | Some (init, last) => Some (x :: init, last)
            | None => None
            end).
    destruct (unpack_last (y :: t')) as [[i' l']|] eqn:E; [|discriminate].
    intros [= <- <-]. simpl. f_equal. now apply IH.
Qed.

Lemma split_dot_not_nil (s : string) : split_dot s <> [].
Proof.
  destruct s as [|c s']; simpl; [discriminate|].
  destruct (Ascii.eqb c "."); [discriminate|].
  destruct (split_dot s'); discriminate.
Qed.

Lemma unpack_last_some (l : list string) :
  l <> [] -> exists init last, unpack_last l = Some (init, last).
Proof.
  induction l as [|x t IH]; [congruence|]. intros _.
  destruct t as [|y t'].
  - simpl. eauto.
  - destruct IH as (i' & l' & E); [discriminate|].
    change (unpack_last (x :: y :: t'))
      with (match unpack_last (y :: t') with
            | Some (init, last) => Some (x :: init, last)
            | None => None
            end).
    rewrite E. eauto.
Qed.

Lemma find_module_end_nonempty (names : list string) :
  forall i,
    forallb nonempty names = true ->
    find_module_end i names = Ok (first_upper_segment i names).
Proof.
  induction names as [|n r IH]; intros i Hne; simpl in *; [reflexivity|].
  apply andb_prop in Hne as [Hn Hr].
  destruct n as [|c n']; [discriminate Hn|]. simpl.
  destruct (isupper c); [reflexivity | now apply IH].
Qed.

Lemma first_upper_segment_bounds (l : list string) :
  forall i p, first_upper_segment i l = Some p ->
              i <= p < i + List.length l.
Proof.
  induction l as [|x t IH]; intros i p; simpl; [discriminate|].
  destruct (starts_upper x).
  - intros [= <-]. lia.
  - intros Hp. apply IH in Hp. lia.
Qed.

Lemma first_upper_segment_app (l : list string) (x : string) :
  forall i,
    first_upper_segment i (l ++ [x])
    = match first_upper_segment i l with
      | Some p => Some p
      | None => if starts_upper x then Some (i + List.length l) else None
      end.
Proof.
  induction l as [|y t IH]; intros i; simpl.
  - rewrite Nat.add_0_r. reflexivity.
  - destruct (starts_upper y); [reflexivity|].
    rewrite IH. replace (S i + List.length t) with (i + S (List.length t))
      by lia. reflexivity.
Qed.

(** The boundary of the source, found among all segments but the last, and
    the boundary of the specification, found among all of them, cut the
    name at the same place. *)
Lemma spec_split_app (init : list string) (last : string) :
  spec_split (init ++ [last])
  = match first_upper_segment 0 init with
    | Some pos => (firstn pos init, skipn pos init ++ [last])
    | None => (init, [last])
    end.
Proof.
  unfold spec_split. rewrite first_upper_segment_app.
  destruct (first_upper_segment 0 init) as [pos|] eqn:E.
  - apply first_upper_segment_bounds in E.
    rewrite firstn_app, skipn_app.
    replace (pos - List.length init) with 0 by lia.
    simpl. now rewrite app_nil_r.
  - destruct (starts_upper last); simpl.
    + rewrite firstn_app, skipn_app, firstn_all, skipn_all, Nat.sub_diag.
      simpl. now rewrite app_nil_r.
    + now rewrite removelast_last, last_last.
Qed.

Lemma load_symbol_cached (rt : runtime) (type_name : string) (s : pystate)
    (symbol : value) :
  dict_get type_name (LOADED_SYMBOLS s) = Some symbol ->
  is_none symbol = false ->
  _load_symbol rt type_name s = (Ok symbol, s).
Proof.
  intros Hget Hnone. unfold _load_symbol, bind, get_state.
  rewrite Hget, Hnone. reflexivity.
Qed.

(** C8. For a dotted name whose segments are non-empty and that the cache
    does not hold, [_load_symbol] does what the specification says: of all
    the segments it takes the first whose first character is upper-case as
    the start of the attribute chain, imports the segments before it as the
    module, walks the rest, the final segment included, by attribute lookup,
    and stores the symbol it reaches. *)
Theorem load_symbol_follows_first_upper_segment :
  forall (rt : runtime) (type_name : string) (s : pystate),
    forallb nonempty (split_dot type_name) = true ->
    cache_miss type_name s = true ->
    _load_symbol rt type_name s
    = (symbol <- spec_resolve rt type_name ;;
       cache_store type_name symbol ;;;
       ret symbol) s.
Proof.
  intros rt type_name s Hne Hmiss.
  unfold _load_symbol. unfold bind at 1. unfold get_state.
  assert (Hnone : is_none (match dict_get type_name (LOADED_SYMBOLS s) with
                           | Some v => v
                           | None => VNone
                           end) = true).
  { unfold cache_miss in Hmiss.
    destruct (dict_get type_name (LOADED_SYMBOLS s)); auto. }
  rewrite Hnone. clear Hnone Hmiss.
  destruct (unpack_last_some (split_dot type_name)
              (split_dot_not_nil type_name)) as (init & last & Hsplit).
  rewrite Hsplit. apply unpack_last_app in Hsplit.
  unfold spec_resolve. rewrite Hsplit in *. rewrite spec_split_app.
  rewrite forallb_app in Hne. apply andb_prop in Hne as [Hinit _].
  rewrite (find_module_end_nonempty init 0 Hinit).
  unfold bind at 1. unfold lift.
  destruct (first_upper_segment 0 init) as [pos|].
  - rewrite bind_assoc. apply bind_ext. intros module s1.
    rewrite <- bind_assoc. unfold bind at 1 4.
    rewrite getattr_chain_app. reflexivity.
  - rewrite bind_assoc. apply bind_ext. intros module s1.
    simpl. unfold bind, ret.
    destruct (getattr rt module last s1) as [[sym|e] s2]; reflexivity.
Qed.

Lemma load_symbol_follows_first_upper_segment_witness :
  _load_symbol small_runtime "geometry.Point" initial_state
  = (Ok (vtype Point),
     mkState [] [("geometry.Point", vtype Point)]).
Proof.
  exact (load_symbol_follows_first_upper_segment small_runtime
           "geometry.Point" initial_state eq_refl eq_refl).
Defined.

(* ================================================================== *)
(** * Further properties of the two modules *)

(** ** The registry keeps insertion order *)

Lemma dict_contains_cons (V : Type) (k k' : string) (v : V) (d : strdict V) :
  dict_contains k ((k', v) :: d) = String.eqb k' k || dict_contains k d.
Proof.
  unfold dict_contains. simpl. destruct (String.eqb k' k); reflexivity.
Qed.

Lemma dict_set_keys (V : Type) (k : string) (v : V) (d : strdict V) :
  map fst (dict_set k v d)
  = if dict_contains k d then map fst d else map fst d ++ [k].
Proof.
  induction d as [|[k' v'] d IH]; [reflexivity|].
  rewrite dict_contains_cons. simpl.
  destruct (String.eqb k' k) eqn:E; simpl; [reflexivity|].
  rewrite IH. destruct (dict_contains k d); reflexivity.
Qed.

Lemma dict_contains_in (V : Type) (k : string) (d : strdict V) :
  dict_contains k d = true <-> In k (map fst d).
Proof.
  induction d as [|[k' v'] d IH]; [simpl; split; [discriminate|tauto]|].
  rewrite dict_contains_cons, orb_true_iff, IH, String.eqb_eq. simpl. tauto.
Qed.

(** X3. [register] never reorders the registry: when it succeeds on a name
    that is bound, [iteritems] lists the same names in the same order; on a
    new name it lists the old names followed by the new one; when it raises,
    the registry is untouched.  Names stay distinct. *)
Theorem register_keeps_insertion_order :
  forall (type_name : string) (cls : pyclass) (override_existing : bool)
         (self : TypeRegistry.registry),
    let (r, self') :=
      TypeRegistry.register type_name cls override_existing self in
    match r with
    | Raise _ => self' = self
    | Ok _ =>
        map fst (TypeRegistry.iteritems self')
        = (if TypeRegistry.is_registered type_name self
           then map fst (TypeRegistry.iteritems self)
           else map fst (TypeRegistry.iteritems self) ++ [type_name])
        /\ TypeRegistry.class_from_typename type_name self' = Some cls
        /\ (NoDup (map fst (TypeRegistry.iteritems self)) ->
            NoDup (map fst (TypeRegistry.iteritems self')))
    end.
Proof.
  intros type_name cls ov self.
  unfold TypeRegistry.register, TypeRegistry.iteritems,
         TypeRegistry.is_registered, TypeRegistry.class_from_typename.
  destruct (dict_contains type_name self && negb ov) eqn:E; [reflexivity|].
  split; [apply dict_set_keys|]. split; [apply dict_get_set_same|].
  intros Hnd. rewrite dict_set_keys.
  destruct (dict_contains type_name self) eqn:Hc; [exact Hnd|].
  apply NoDup_app; [exact Hnd | repeat constructor; simpl; tauto |].
  intros k Hin [<-|[]].
  apply dict_contains_in in Hin. congruence.
Qed.

(** X15. Class definition overrides without a word: when two concrete
    classes that do not opt out are defined one after the other under the
    same registration name, the second definition succeeds, the name is
    bound to the second class, and the list of registered names is what it
    was after the first. *)
Theorem init_subclass_twice_second_wins :
  forall (c1 c2 : pyclass) (s : pystate),
    cls_abstract c1 = false -> cls_auto_register c1 = true ->
    cls_abstract c2 = false -> cls_auto_register c2 = true ->
    registration_name c1 = registration_name c2 ->
    exists s1 s2,
      JSONConvertible.__init_subclass__ c1 s = (Ok tt, s1)
      /\ JSONConvertible.__init_subclass__ c2 s1 = (Ok tt, s2)
      /\ JSONConvertible.class_from_typename (registration_name c1) s2
         = (Ok (Some c2), s2)
      /\ map fst (TYPE_REGISTRY s2) = map fst (TYPE_REGISTRY s1).
Proof.
  intros c1 c2 [reg cache] Ha1 Hr1 Ha2 Hr2 Hname.
  unfold JSONConvertible.__init_subclass__.
  rewrite Ha1, Hr1, Ha2, Hr2. simpl.
  fold (registration_name c1). fold (registration_name c2).
  rewrite <- Hname.
  unfold JSONConvertible.register, TypeRegistry.register. simpl.
  rewrite !andb_false_r.
  exists (mkState (dict_set (registration_name c1) c1 reg) cache).
  exists (mkState (dict_set (registration_name c1) c2
                     (dict_set (registration_name c1) c1 reg)) cache).
  split; [reflexivity|]. simpl. rewrite andb_false_r.
  split; [reflexivity|].
  unfold JSONConvertible.class_from_typename,
         TypeRegistry.class_from_typename. simpl.
  split; [now rewrite dict_get_set_same|].
  rewrite (dict_set_keys _ (registration_name c1) c2).
  assert (Hc : dict_contains (registration_name c1)
                 (dict_set (registration_name c1) c1 reg) = true).
  { apply dict_contains_get. rewrite dict_get_set_same. eauto. }
  now rewrite Hc.
Qed.

Lemma init_subclass_twice_second_wins_witness :
  exists s1 s2,
    JSONConvertible.__init_subclass__ Point initial_state = (Ok tt, s1)
    /\ JSONConvertible.__init_subclass__
         (mkClass 103 "geometry" "Point" true false true None) s1
       = (Ok tt, s2)
    /\ JSONConvertible.class_from_typename (registration_name Point) s2
       = (Ok (Some (mkClass 103 "geometry" "Point" true false true None)),
          s2)
    /\ map fst (TYPE_REGISTRY s2) = map fst (TYPE_REGISTRY s1).
Proof.
  exact (init_subclass_twice_second_wins Point
           (mkClass 103 "geometry" "Point" true false true None)
           initial_state eq_refl eq_refl eq_refl eq_refl eq_refl).
Defined.

(** ** Lists, tuples and the marker *)

Lemma mapM_length {A B : Type} (f : A -> M B) (l : list A) (s s' : pystate)
    (r : list B) :
  mapM f l s = (Ok r, s') -> List.length r = List.length l.
Proof.
  intros Hr. apply mapM_ok_inv in Hr.
  symmetry. eapply Forall2_length. exact Hr.
Qed.

Lemma from_json_list_outcome (rt : runtime) (t : pytype)
    (items : list value) (s : pystate) (r : value) (s' : pystate) :
  from_json rt (VList t items) s = (Ok r, s') ->
  if starts_with_marker items
  then exists l, r = vtuple l /\ S (List.length l) = List.length items
  else exists l, r = vlist l /\ List.length l = List.length items.
Proof.
  rewrite from_json_list. destruct (starts_with_marker items) eqn:Hm.
  - destruct items as [|first [|second rest]]; try discriminate.
    change (Nat.ltb (List.length (first :: second :: rest)) 2) with false.
    cbv iota. unfold bind at 1.
    destruct (mapM (from_json rt) (tl (first :: second :: rest)) s)
      as [[l|e] s1] eqn:Hl; [|discriminate].
    unfold ret. intros [= <- _]. exists l. split; [reflexivity|].
    apply mapM_length in Hl. simpl in *. now rewrite Hl.
  - unfold bind at 1.
    destruct (mapM (from_json rt) items s) as [[l|e] s1] eqn:Hl;
      [|discriminate].
    unfold ret. intros [= <- _]. exists l. split; [reflexivity|].
    eapply mapM_length. exact Hl.
Qed.

(** X1. What [from_json] makes of a list is decided by its first element
    alone: a list that starts with the marker is never read as a list, it
    raises [ValueError] when nothing follows the marker and otherwise
    becomes a tuple with one element less; any other list becomes a list of
    the same length. *)
Theorem from_json_list_kind :
  forall (rt : runtime) (t : pytype) (items : list value) (s : pystate),
    (starts_with_marker items = true -> List.length items = 1 ->
     from_json rt (VList t items) s = (Raise ValueError, s))
    /\ (forall r s',
          from_json rt (VList t items) s = (Ok r, s') ->
          if starts_with_marker items
          then exists l, r = vtuple l /\ S (List.length l) = List.length items
          else exists l, r = vlist l /\ List.length l = List.length items).
Proof.
  intros rt t items s. split.
  - intros Hm Hlen. rewrite from_json_list, Hm, Hlen. reflexivity.
  - intros r s'. apply from_json_list_outcome.
Qed.

Lemma from_json_list_kind_witness :
  from_json small_runtime (vlist [vstr "__tuple__"]) initial_state
  = (Raise ValueError, initial_state).
Proof.
  exact (proj1 (from_json_list_kind small_runtime Exact [vstr "__tuple__"]
                  initial_state) eq_refl eq_refl).
Defined.

(** X14. A tuple keeps its kind and its length whatever it holds: [to_json]
    of a tuple that is not a convertible object, when it succeeds, is the
    marker followed by one entry per element, and [from_json] of that, when
    it succeeds, is a tuple of the same length; for the empty tuple
    [to_json] yields the bare marker and [from_json] raises [ValueError]. *)
Theorem tuple_keeps_kind_and_length :
  forall (rt : runtime) (fuel : nat) (t : pytype) (items : list value)
         (kw : kwargs) (s s1 : pystate) (j : value),
    isinstance_convertible (VTuple t items) = false ->
    to_json rt fuel (VTuple t items) kw s = (Ok j, s1) ->
    (exists l,
       j = vlist (vstr TUPLE_MARKER :: l)
       /\ List.length l = List.length items)
    /\ (items = [] -> from_json rt j s1 = (Raise ValueError, s1))
    /\ (forall r s2,
          from_json rt j s1 = (Ok r, s2) ->
          exists l', r = vtuple l'
                     /\ List.length l' = List.length items).
Proof.
  intros rt fuel t items kw s s1 j Hc Hto.
  rewrite to_json_unfold in Hto. simpl isinstance_primitive in Hto.
  cbv iota in Hto. rewrite Hc in Hto. simpl in Hto.
  unfold bind in Hto at 1.
  match type of Hto with
  | context [mapM ?f items s] =>
      destruct (mapM f items s) as [[l|e] s0] eqn:Hl; [|discriminate]
  end.
  unfold ret in Hto. injection Hto as <- <-.
  apply mapM_length in Hl.
  split; [exists l; auto|]. split.
  - intros ->. destruct l; [reflexivity | discriminate Hl].
  - intros r s2 Hfrom.
    pose proof (from_json_list_outcome rt Exact (vstr TUPLE_MARKER :: l)
                  s0 r s2 Hfrom) as Hkind.
    simpl in Hkind.
    destruct Hkind as (l' & -> & Hlen).
    exists l'. split; [reflexivity|]. lia.
Qed.

Lemma tuple_keeps_kind_and_length_witness :
  from_json small_runtime (vlist [vstr "__tuple__"]) initial_state
  = (Raise ValueError, initial_state).
Proof.
  exact (proj1 (proj2 (tuple_keeps_kind_and_length small_runtime 0 Exact []
                         [] initial_state initial_state
                         (vlist [vstr "__tuple__"]) eq_refl eq_refl))
               eq_refl).
Defined.

(** ** Type names that resolve to nothing *)

(** X2. A dictionary whose ['_type'] is not a reserved name and is bound to
    no class is refused with [TypeError], and nothing is changed; so is one
    whose ['_type'] is not a string at all. *)
Theorem from_json_unknown_type_name :
  forall (rt : runtime) (t : pytype) (items : list (value * value))
         (type_name : value) (s : pystate),
    dict_lookup TYPE_NAME_KEY items = Some type_name ->
    (forall t' n,
       type_name = VStr t' n ->
       reserved_type_name n = false
       /\ TypeRegistry.class_from_typename n (TYPE_REGISTRY s) = None) ->
    from_json rt (VDict t items) s = (Raise TypeError, s).
Proof.
  intros rt t items type_name s Ht Hn.
  simpl from_json. rewrite dict_has_key_lookup, Ht. simpl negb. cbv iota.
  rewrite with_item_lookup, Ht.
  destruct type_name; try reflexivity;
    try match goal with
        | |- context [class_of_type_name (VTuple _ ?l)] =>
            simpl; unfold class_of_type_name, bind; simpl;
            destruct (forallb hashable l); reflexivity
        end.
  destruct (Hn _ _ eq_refl) as [Hres Hreg].
  unfold reserved_type_name in Hres.
  apply orb_false_iff in Hres as [Hres Hm].
  apply orb_false_iff in Hres as [Ht' Hf].
  unfold str_equals. rewrite Ht', Hf, Hm.
  unfold class_of_type_name, JSONConvertible.class_from_typename, bind.
  simpl. rewrite Hreg. reflexivity.
Qed.

Lemma from_json_unknown_type_name_witness :
  from_json small_runtime (vdict [(vstr "_type", vstr "unknown_name")])
            initial_state
  = (Raise TypeError, initial_state).
Proof.
  apply (from_json_unknown_type_name small_runtime Exact
           [(vstr "_type", vstr "unknown_name")] (vstr "unknown_name")
           initial_state eq_refl).
  intros t' n [= _ <-]. split; reflexivity.
Defined.

(** ** The symbol cache *)

Lemma load_symbol_stores (rt : runtime) (type_name : string)
    (s s' : pystate) (symbol : value) :
  _load_symbol rt type_name s = (Ok symbol, s') ->
  is_none symbol = false ->
  dict_get type_name (LOADED_SYMBOLS s') = Some symbol.
Proof.
  unfold _load_symbol. unfold bind at 1. unfold get_state.
  destruct (dict_get type_name (LOADED_SYMBOLS s)) as [cached|] eqn:Hget.
  - destruct (is_none cached) eqn:Hnone.
    + destruct (unpack_last (split_dot type_name)) as [[init last]|];
        [|discriminate].
      unfold bind at 1. unfold lift.
      destruct (find_module_end 0 init) as [pos|e]; [|discriminate].
      destruct (match pos with
                | Some p => (join_dot (firstn p init), skipn p init)
                | None => (join_dot init, [])
                end) as [module_name parents].
      unfold bind.
      destruct (import_module rt module_name s) as [[m|e] s1];
        [|discriminate].
      destruct (getattr_chain rt m parents s1) as [[p|e] s2];
        [|discriminate].
      destruct (getattr rt p last s2) as [[sym|e] s3]; [|discriminate].
      simpl. intros [= <- <-] _. simpl. apply dict_get_set_same.
    + unfold ret. intros [= <- <-] _. exact Hget.
  - simpl.
    destruct (unpack_last (split_dot type_name)) as [[init last]|];
      [|discriminate].
    unfold bind at 1. unfold lift.
    destruct (find_module_end 0 init) as [pos|e]; [|discriminate].
    destruct (match pos with
              | Some p => (join_dot (firstn p init), skipn p init)
              | None => (join_dot init, [])
              end) as [module_name parents].
    unfold bind.
    destruct (import_module rt module_name s) as [[m|e] s1];
      [|discriminate].
    destruct (getattr_chain rt m parents s1) as [[p|e] s2];
      [|discriminate].
    destruct (getattr rt p last s2) as [[sym|e] s3]; [|discriminate].
    simpl. intros [= <- <-] _. simpl. apply dict_get_set_same.
Qed.

(** X7. A symbol is resolved once: after [_load_symbol] has returned a
    symbol other than [None] for a name, a second call for that name
    returns the same symbol and leaves the state as it is (no import, no
    attribute lookup). *)
Theorem load_symbol_resolves_once :
  forall (rt : runtime) (type_name : string) (s s' : pystate)
         (symbol : value),
    _load_symbol rt type_name s = (Ok symbol, s') ->
    is_none symbol = false ->
    _load_symbol rt type_name s' = (Ok symbol, s').
Proof.
  intros rt type_name s s' symbol Hload Hnone.
  apply load_symbol_cached; [|exact Hnone].
  eapply load_symbol_stores; eassumption.
Qed.

Lemma load_symbol_resolves_once_witness :
  _load_symbol small_runtime "geometry.Point"
    (mkState [] [("geometry.Point", vtype Point)])
  = (Ok (vtype Point), mkState [] [("geometry.Point", vtype Point)]).
Proof.
  exact (load_symbol_resolves_once small_runtime "geometry.Point"
           initial_state (mkState [] [("geometry.Point", vtype Point)])
           (vtype Point) eq_refl eq_refl).
Defined.

(** X8. An empty segment ahead of the first capitalised one is a crash, not
    an import error: when the name is not cached and, among the segments
    before the last, an empty one comes before any that starts with an
    upper-case letter, [_load_symbol] raises [IndexError] and has imported
    nothing. *)
Theorem load_symbol_empty_segment :
  forall (rt : runtime) (type_name : string) (s : pystate)
         (pre post : list string) (last : string),
    split_dot type_name = pre ++ EmptyString :: post ++ [last] ->
    forallb (fun n => nonempty n && negb (starts_upper n)) pre = true ->
    cache_miss type_name s = true ->
    _load_symbol rt type_name s = (Raise IndexError, s).
Proof.
  intros rt type_name s pre post last Hsplit Hpre Hmiss.
  unfold _load_symbol. unfold bind at 1. unfold get_state.
  assert (Hnone : is_none (match dict_get type_name (LOADED_SYMBOLS s) with
                           | Some v => v
                           | None => VNone
                           end) = true).
  { unfold cache_miss in Hmiss.
    destruct (dict_get type_name (LOADED_SYMBOLS s)); auto. }
  rewrite Hnone.
  destruct (unpack_last_some (split_dot type_name)
              (split_dot_not_nil type_name)) as (init & last' & Hu).
  rewrite Hu. apply unpack_last_app in Hu. rewrite Hsplit in Hu.
  assert (Hinit : init = pre ++ EmptyString :: post).
  { assert (Hre : pre ++ EmptyString :: post ++ [last]
                  = (pre ++ EmptyString :: post) ++ [last])
      by (now rewrite <- app_assoc).
    rewrite Hre in Hu. apply app_inj_tail in Hu. symmetry. apply Hu. }
  subst init. unfold bind at 1. unfold lift.
  assert (Hraise : forall i,
             find_module_end i (pre ++ EmptyString :: post)
             = Raise IndexError).
  { clear - Hpre. induction pre as [|n r IH]; intros i; [reflexivity|].
    simpl in Hpre. apply andb_prop in Hpre as [Hn Hr].
    apply andb_prop in Hn as [Hne Hup].
    destruct n as [|c n']; [discriminate Hne|]. simpl in *.
    apply negb_true_iff in Hup. rewrite Hup. now apply IH. }
  now rewrite Hraise.
Qed.

Lemma load_symbol_empty_segment_witness :
  _load_symbol small_runtime "geometry..Point.origin" initial_state
  = (Raise IndexError, initial_state).
Proof.
  exact (load_symbol_empty_segment small_runtime "geometry..Point.origin"
           initial_state ["geometry"] ["Point"] "origin"
           eq_refl eq_refl eq_refl).
Defined.

(** ** Class objects *)

Lemma is_class_not_none (c : pyclass) (symbol : value) :
  is_class c symbol = true -> is_none symbol = false.
Proof.
  destruct symbol; simpl; congruence.
Qed.

(** X5. A class object either fails to serialise with [ValueError] (every
    exception of the import and of the attribute lookups is turned into that
    one), or serialises to its type entry; and in that case [from_json] of
    the entry returns, from the cache and with the state unchanged, a symbol
    that is the very same class object. *)
Theorem class_object_round_trip :
  forall (rt : runtime) (fuel : nat) (t : pytype) (c : pyclass) (kw : kwargs)
         (s s' : pystate) (r : result value),
    isinstance_convertible (VType t c) = false ->
    to_json rt fuel (VType t c) kw s = (r, s') ->
    r = Raise ValueError
    \/ (r = Ok (vdict [(vstr TYPE_NAME_KEY, vstr "type");
                       (vstr "name",
                        vstr (_type_name (cls_module c) (cls_qualname c)))])
        /\ exists symbol,
             from_json rt
               (vdict [(vstr TYPE_NAME_KEY, vstr "type");
                       (vstr "name",
                        vstr (_type_name (cls_module c) (cls_qualname c)))])
               s' = (Ok symbol, s')
             /\ is_class c symbol = true).
Proof.
  intros rt fuel t c kw s s' r Hc Hto.
  rewrite to_json_unfold in Hto. simpl isinstance_primitive in Hto.
  cbv iota in Hto. rewrite Hc in Hto. simpl in Hto.
  unfold _type_to_json in Hto.
  destruct (_load_symbol rt (_type_name (cls_module c) (cls_qualname c)) s)
    as [[symbol|e] s1] eqn:Hload.
  - destruct (is_class c symbol) eqn:His.
    + injection Hto as <- <-. right. split; [reflexivity|].
      exists symbol. split; [|exact His].
      pose proof (is_class_not_none _ _ His) as Hnone.
      pose proof (load_symbol_stores _ _ _ _ _ Hload Hnone) as Hget.
      simpl. apply load_symbol_cached; assumption.
    + injection Hto as <- _. now left.
  - injection Hto as <- _. now left.
Qed.

Lemma class_object_round_trip_witness :
  exists symbol,
    from_json small_runtime
      (vdict [(vstr TYPE_NAME_KEY, vstr "type");
              (vstr "name",
               vstr (_type_name (cls_module Point) (cls_qualname Point)))])
      (mkState [] [("geometry.Point", vtype Point)])
    = (Ok symbol, mkState [] [("geometry.Point", vtype Point)])
    /\ is_class Point symbol = true.
Proof.
  destruct (class_object_round_trip small_runtime 0 Exact Point []
              initial_state (mkState [] [("geometry.Point", vtype Point)])
              (Ok (vdict [(vstr "_type", vstr "type");
                          (vstr "name", vstr "geometry.Point")]))
              eq_refl eq_refl) as [H|[_ H]].
  - discriminate H.
  - exact H.
Defined.

(** ** Functions that carry their code *)

Lemma needs_code_of (f : func_meta) :
  fn_name f = "<lambda>"
  \/ Z.land (co_flags (fn_code f)) CO_NESTED <> 0%Z ->
  needs_code f = true.
Proof.
  unfold needs_code. intros [Hname|Hflag].
  - rewrite Hname. reflexivity.
  - apply orb_true_iff. right. apply negb_true_iff.
    now apply Z.eqb_neq.
Qed.

(** X13. What a lambda or a nested function keeps on the round trip: when
    the codec gives its code object back and its defaults are [None] or a
    tuple of plain, unambiguous data, [to_json] succeeds; [from_json] of the
    result is, when the code has no free variable, a function with the same
    code object and the same defaults, whose module and globals are those
    of [json_conversion]; when the code has a free variable, [from_json]
    raises [TypeError], for no closure is rebuilt.  The state is not
    touched. *)
Theorem function_with_code_round_trip :
  forall (rt : runtime) (fuel : nat) (f : func_meta) (d : value)
         (kw : kwargs) (s : pystate),
    fn_name f = "<lambda>"
    \/ Z.land (co_flags (fn_code f)) CO_NESTED <> 0%Z ->
    codec_round_trips rt (fn_code f) ->
    is_defaults d = true ->
    plain_data d = true ->
    unambiguous d = true ->
    exists j,
      to_json rt fuel (VFunction f d) kw s = (Ok j, s)
      /\ from_json rt j s
         = match co_freevars (fn_code f) with
           | [] =>
               (Ok (VFunction
                      (mkFunc json_conversion_module
                              (co_qualname (fn_code f))
                              (co_name (fn_code f)) (fn_code f)
                              module_globals)
                      d), s)
           | _ :: _ => (Raise TypeError, s)
           end.
Proof.
  intros rt fuel f d kw s Hkind (blob & raw & Henc & Hdec & Hload)
         Hdef Hplain Hunamb.
  pose proof (needs_code_of f Hkind) as Hneeds.
  destruct (round_trips_all rt fuel [] d Hplain Hunamb)
    as (jd & Hto & Hfrom & _).
  exists (vdict [(vstr TYPE_NAME_KEY, vstr "function");
                 (vstr "name",
                  vstr (_type_name (fn_module f) (fn_qualname f)));
                 (vstr "code", vstr blob);
                 (vstr "defaults", jd)]).
  split.
  - rewrite to_json_unfold. simpl.
    unfold _function_to_json. rewrite Hneeds.
    unfold encode_code, bind, lift. rewrite Henc. unfold ret.
    rewrite Hto. reflexivity.
  - simpl. unfold _function_from_json. simpl.
    unfold decode_code, bind, lift. rewrite Hdec, Hload, Hfrom.
    unfold FunctionType.
    destruct d; try discriminate Hdef;
      destruct (co_freevars (fn_code f)); reflexivity.
Qed.

Lemma function_with_code_round_trip_witness :
  (exists j,
     to_json small_runtime 0 a_lambda [] initial_state = (Ok j, initial_state)
     /\ from_json small_runtime j initial_state
        = (Ok (VFunction
                 (mkFunc json_conversion_module "f.<locals>.<lambda>"
                         "<lambda>" lambda_code module_globals) VNone),
           initial_state))
  /\ (exists j,
        to_json small_runtime 0 a_closure [] initial_state
        = (Ok j, initial_state)
        /\ from_json small_runtime j initial_state
           = (Raise TypeError, initial_state)).
Proof.
  split.
  - apply (function_with_code_round_trip small_runtime 0
             (mkFunc "__main__" "f.<locals>.<lambda>" "<lambda>" lambda_code
                     ["__name__"; "f"; "helper"])
             VNone [] initial_state); try reflexivity.
    + left. reflexivity.
    + exists lambda_blob, lambda_dump. repeat split.
  - apply (function_with_code_round_trip small_runtime 0
             (mkFunc "__main__" "f.<locals>.inner" "inner" closure_code
                     ["__name__"; "f"; "helper"])
             VNone [] initial_state); try reflexivity.
    + right. discriminate.
    + exists closure_blob, closure_dump. repeat split.
Defined.

(** ** [to_json_dict] *)

Fixpoint has_dot (s : string) : bool :=
  match s with
  | EmptyString => false
  | String c s' => Ascii.eqb c "."%char || has_dot s'
  end.

Lemma type_name_has_dot (module qualname : string) :
  has_dot (_type_name module qualname) = true.
Proof.
  unfold _type_name. induction module as [|c m IH]; simpl in *.
  - reflexivity.
  - rewrite IH. apply orb_true_r.
Qed.

(** A dotted type name is none of the reserved ones. *)
Lemma type_name_not_reserved (module qualname : string) :
  reserved_type_name (_type_name module qualname) = false.
Proof.
  unfold reserved_type_name.
  assert (H : forall r, has_dot r = false ->
                        String.eqb (_type_name module qualname) r = false).
  { intros r Hr. apply String.eqb_neq. intros E.
    rewrite <- E, type_name_has_dot in Hr. discriminate. }
  rewrite !H by reflexivity. reflexivity.
Qed.

Lemma dict_has_key_app (k : string) (l1 l2 : list (value * value)) :
  dict_has_key k (l1 ++ l2) = dict_has_key k l1 || dict_has_key k l2.
Proof.
  unfold dict_has_key. apply existsb_app.
Qed.

Lemma items_set_new (k : string) (v : value) (items : list (value * value)) :
  dict_has_key k items = false ->
  items_set k v items = items ++ [(vstr k, v)].
Proof.
  induction items as [|[k' v'] t IH]; simpl; [reflexivity|].
  intros H. apply orb_false_iff in H as [Hk Ht].
  rewrite Hk. now rewrite IH.
Qed.

Lemma items_update_new (l : list (string * value)) :
  forall items,
    NoDup (map fst l) ->
    (forall k, In k (map fst l) -> dict_has_key k items = false) ->
    items_update items l
    = items ++ map (fun kv => (vstr (fst kv), snd kv)) l.
Proof.
  induction l as [|[k v] t IH]; intros items Hnd Hnew; simpl.
  - now rewrite app_nil_r.
  - inversion Hnd as [|? ? Hk Hnd']; subst.
    rewrite items_set_new by (apply Hnew; simpl; auto).
    rewrite IH; [now rewrite <- app_assoc | exact Hnd' |].
    intros k' Hin. rewrite dict_has_key_app, Hnew by (simpl; auto).
    simpl. rewrite orb_false_r.
    apply String.eqb_neq. intros ->. contradiction.
Qed.

Lemma round_trips_fields (rt : runtime) (fuel : nat) (kw : kwargs)
    (fields : list (string * value)) :
  forallb (fun kv : string * value =>
             plain_data (snd kv) && unambiguous (snd kv)) fields = true ->
  exists js,
    (forall s,
       mapM (fun kv : string * value =>
               let (k, x) := kv in
               y <- to_json rt fuel x kw ;; ret (k, y)) fields s
       = (Ok js, s))
    /\ map fst js = map fst fields
    /\ (forall s,
          mapM (fun kv : value * value =>
                  let (k, x) := kv in
                  y <- from_json rt x ;; ret (k, y))
               (map (fun kv => (vstr (fst kv), snd kv)) js) s
          = (Ok (map (fun kv => (vstr (fst kv), snd kv)) fields), s)).
Proof.
  induction fields as [|[k x] t IH]; simpl; intros H.
  - exists []. repeat split.
  - apply andb_prop in H as [Hx Ht]. apply andb_prop in Hx as [Hp Hu].
    destruct (round_trips_all rt fuel kw x Hp Hu) as (j & Hto & Hfrom & _).
    destruct (IH Ht) as (js & Htos & Hkeys & Hfroms).
    exists ((k, j) :: js). repeat split.
    + intros s. unfold bind. rewrite Hto. unfold ret at 1.
      rewrite Htos. reflexivity.
    + simpl. now rewrite Hkeys.
    + intros s. simpl. unfold bind. rewrite Hfrom. unfold ret at 1.
      rewrite Hfroms. reflexivity.
Qed.

Lemma init_args_of_no_type_key (f : value -> M value)
    (l : list (string * value)) (s : pystate) :
  ~ In TYPE_NAME_KEY (map fst l) ->
  init_args_of f (map (fun kv => (vstr (fst kv), snd kv)) l) s
  = mapM (fun kv : value * value =>
            let (k, x) := kv in y <- f x ;; ret (k, y))
         (map (fun kv => (vstr (fst kv), snd kv)) l) s.
Proof.
  intros Hno. rewrite init_args_of_filter. f_equal.
  induction l as [|[k x] t IH]; [reflexivity|].
  simpl in *. assert (Hk : String.eqb k TYPE_NAME_KEY = false).
  { apply String.eqb_neq. intros ->. apply Hno. auto. }
  rewrite Hk. simpl. f_equal. apply IH. tauto.
Qed.

(** X4. The fields written by [to_json_dict] come back as the keywords of
    the constructor: for a convertible class that keeps the default
    [from_json] and is registered under its dotted name, and for fields,
    none of them called ['_type'], whose values are plain and unambiguous,
    [to_json_dict] succeeds and [from_json] of its result is the call of the
    class with the fields as keywords, in their order. *)
Theorem to_json_dict_round_trip :
  forall (rt : runtime) (fuel : nat) (cls : pyclass)
         (fields : list (string * value)) (kw : kwargs) (s : pystate),
    NoDup (map fst fields) ->
    ~ In TYPE_NAME_KEY (map fst fields) ->
    forallb (fun kv : string * value =>
               plain_data (snd kv) && unambiguous (snd kv)) fields = true ->
    TypeRegistry.class_from_typename
      (_type_name (cls_module cls) (cls_qualname cls)) (TYPE_REGISTRY s)
    = Some cls ->
    cls_convertible cls = true ->
    class_from_json rt cls = None ->
    exists j,
      to_json_dict rt fuel cls fields kw s = (Ok j, s)
      /\ from_json rt j s
         = class_call rt cls
             (map (fun kv => (vstr (fst kv), snd kv)) fields) s.
Proof.
  intros rt fuel cls fields kw s Hnd Hno Hplain Hreg Hconv Hown.
  destruct (round_trips_fields rt fuel kw fields Hplain)
    as (js & Hto & Hkeys & Hfrom).
  unfold to_json_dict, bind. rewrite Hto. unfold ret.
  eexists. split; [reflexivity|].
  rewrite items_update_new.
  - unfold vdict. simpl from_json.
    pose proof (type_name_not_reserved (cls_module cls) (cls_qualname cls))
      as Hres.
    unfold reserved_type_name in Hres.
    apply orb_false_iff in Hres as [Hres Hm].
    apply orb_false_iff in Hres as [Ht Hf].
    rewrite Ht, Hf, Hm.
    unfold JSONConvertible.class_from_typename. unfold bind at 1.
    unfold TypeRegistry.class_from_typename in *. rewrite Hreg.
    rewrite Hown, Hconv. unfold bind.
    rewrite init_args_of_no_type_key by (now rewrite Hkeys).
    rewrite Hfrom. reflexivity.
  - now rewrite Hkeys.
  - intros k Hin.
    change (String.eqb TYPE_NAME_KEY k || false = false).
    rewrite orb_false_r. apply String.eqb_neq. intros E. apply Hno.
    rewrite <- Hkeys, E. exact Hin.
Qed.

Lemma to_json_dict_round_trip_witness :
  exists j,
    to_json_dict small_runtime 0 Point
      [("x", vint 1); ("y", vtuple [vint 2; vstr "a"])] []
      (mkState [("geometry.Point", Point)] [])
    = (Ok j, mkState [("geometry.Point", Point)] [])
    /\ from_json small_runtime j (mkState [("geometry.Point", Point)] [])
       = class_call small_runtime Point
           [(vstr "x", vint 1); (vstr "y", vtuple [vint 2; vstr "a"])]
           (mkState [("geometry.Point", Point)] []).
Proof.
  apply (to_json_dict_round_trip small_runtime 0 Point
           [("x", vint 1); ("y", vtuple [vint 2; vstr "a"])] []
           (mkState [("geometry.Point", Point)] [])); try reflexivity.
  - repeat constructor; simpl; intuition discriminate.
  - simpl. intuition discriminate.
Defined.

Lemma dict_lookup_items_set (k k' : string) (v : value)
    (items : list (value * value)) :
  dict_lookup k (items_set k' v items)
  = if String.eqb k' k then Some v else dict_lookup k items.
Proof.
  induction items as [|[k0 v0] t IH]; simpl.
  - destruct (String.eqb k' k); reflexivity.
  - destruct (str_equals k0 k') eqn:E0; simpl.
    + apply str_equals_eq in E0 as [t0 ->]. simpl.
      destruct (String.eqb k' k); reflexivity.
    + destruct (str_equals k0 k) eqn:E1; [|exact IH].
      apply str_equals_eq in E1 as [t0 ->]. simpl in E0.
      rewrite String.eqb_sym in E0. now rewrite E0.
Qed.

Lemma dict_lookup_items_update_other (k : string) (l : list (string * value)) :
  forall items,
    ~ In k (map fst l) ->
    dict_lookup k (items_update items l) = dict_lookup k items.
Proof.
  induction l as [|[k1 v1] t IH]; intros items Hno; simpl; [reflexivity|].
  simpl in Hno. rewrite IH by tauto. rewrite dict_lookup_items_set.
  destruct (String.eqb k1 k) eqn:E; [|reflexivity].
  apply String.eqb_eq in E. tauto.
Qed.

Lemma dict_lookup_items_update_in (k : string) (y : value)
    (l : list (string * value)) :
  forall items,
    NoDup (map fst l) -> In (k, y) l ->
    dict_lookup k (items_update items l) = Some y.
Proof.
  induction l as [|[k1 v1] t IH]; intros items Hnd Hin; [contradiction|].
  simpl in *. inversion Hnd as [|? ? Hk Hnd']; subst.
  destruct Hin as [[= -> ->]|Hin].
  - rewrite dict_lookup_items_update_other by exact Hk.
    rewrite dict_lookup_items_set. now rewrite String.eqb_refl.
  - now apply IH.
Qed.

Lemma items_update_head (l : list (string * value)) :
  forall k0 v0 t,
    exists v' t', items_update ((k0, v0) :: t) l = (k0, v') :: t'.
Proof.
  induction l as [|[k1 v1] r IH]; intros k0 v0 t; simpl; [eauto|].
  destruct (str_equals k0 k1); apply IH.
Qed.

(** X16. The entry ['_type'] of what [to_json_dict] returns always comes
    first.  When no field is called ['_type'] its value is the dotted name
    of the class; when a field is called ['_type'] its value is the
    serialised value of that field, whatever that is. *)
Theorem to_json_dict_type_entry :
  forall (rt : runtime) (fuel : nat) (cls : pyclass)
         (fields : list (string * value)) (kw : kwargs) (s s' : pystate)
         (j : value),
    NoDup (map fst fields) ->
    to_json_dict rt fuel cls fields kw s = (Ok j, s') ->
    exists v rest,
      j = vdict ((vstr TYPE_NAME_KEY, v) :: rest)
      /\ (~ In TYPE_NAME_KEY (map fst fields) ->
          v = vstr (_type_name (cls_module cls) (cls_qualname cls)))
      /\ (forall x,
            In (TYPE_NAME_KEY, x) fields ->
            exists s1 s2, to_json rt fuel x kw s1 = (Ok v, s2)).
Proof.
  intros rt fuel cls fields kw s s' j Hnd Hto.
  unfold to_json_dict, bind in Hto.
  match type of Hto with
  | context [mapM ?f fields s] =>
      destruct (mapM f fields s) as [[l|e] s1] eqn:Hl; [|discriminate]
  end.
  unfold ret in Hto. injection Hto as <- _.
  apply mapM_ok_inv in Hl.
  assert (Hrel : Forall2 (fun kv kv' : string * value =>
                            fst kv' = fst kv
                            /\ exists s1 s2,
                                 to_json rt fuel (snd kv) kw s1
                                 = (Ok (snd kv'), s2)) fields l).
  { clear Hnd. induction Hl as [|[k x] [k' y] ? ? Hxy ? IH]; constructor;
      [|exact IH].
    destruct Hxy as (s1' & s2' & Hxy). unfold bind in Hxy.
    destruct (to_json rt fuel x kw s1') as [[y'|e] s3] eqn:Hx;
      [|discriminate].
    unfold ret in Hxy. injection Hxy as <- <- _. simpl. eauto. }
  assert (Hkeys : map fst l = map fst fields).
  { clear - Hrel. induction Hrel as [|? ? ? ? [Hk _] ? IH]; simpl;
      [reflexivity|]. now rewrite Hk, IH. }
  destruct (items_update_head l (vstr TYPE_NAME_KEY)
              (vstr (_type_name (cls_module cls) (cls_qualname cls))) [])
    as (v & rest & Hupd).
  exists v, rest. split; [now rewrite Hupd|].
  assert (Hv : dict_lookup TYPE_NAME_KEY
                 (items_update
                    [(vstr TYPE_NAME_KEY,
                      vstr (_type_name (cls_module cls) (cls_qualname cls)))]
                    l) = Some v)
    by (rewrite Hupd; reflexivity).
  split.
  - intros Hno.
    rewrite dict_lookup_items_update_other in Hv by (now rewrite Hkeys).
    simpl in Hv. congruence.
  - intros x Hin.
    assert (Hy : exists y, In (TYPE_NAME_KEY, y) l
                           /\ exists s1 s2,
                                to_json rt fuel x kw s1 = (Ok y, s2)).
    { clear - Hrel Hin.
      induction Hrel as [|[k x0] [k' y0] ? ? [Hk Hx] ? IH];
        [contradiction|].
      simpl in *. destruct Hin as [[= -> ->]|Hin].
      - subst k'. eauto.
      - destruct (IH Hin) as (y & Hy & Hs). eauto. }
    destruct Hy as (y & Hy & Hs).
    rewrite (dict_lookup_items_update_in TYPE_NAME_KEY y) in Hv;
      [|now rewrite Hkeys|exact Hy].
    injection Hv as <-. exact Hs.
Qed.

Lemma to_json_dict_type_entry_witness :
  exists v rest,
    vdict [(vstr "_type", vint 7); (vstr "x", vint 1)]
    = vdict ((vstr TYPE_NAME_KEY, v) :: rest)
    /\ (~ In TYPE_NAME_KEY (map fst [("x", vint 1); ("_type", vint 7)]) ->
        v = vstr (_type_name (cls_module Point) (cls_qualname Point)))
    /\ (forall x,
          In (TYPE_NAME_KEY, x) [("x", vint 1); ("_type", vint 7)] ->
          exists s1 s2, to_json small_runtime 0 x [] s1 = (Ok v, s2)).
Proof.
  apply (to_json_dict_type_entry small_runtime 0 Point
           [("x", vint 1); ("_type", vint 7)] [] initial_state initial_state).
  - repeat constructor; simpl; intuition discriminate.
  - reflexivity.
Defined.

(** ** Signatures from callables *)

Section Introspection.
Context {VS : Type} {ops : ValueSpecOps VS}.

Definition described (a : Argument VS) : string * VS :=
  (arg_name a, arg_value_spec a).

Definition describes (param : inspect_Parameter) : string * VS :=
  (param_name param, param_value_spec param).

Lemma classify_buckets (params : list inspect_Parameter) :
  forall (id : nat) (a k : list (Argument VS)) (va vk : option (Argument VS)),
    let '(a', k', va', vk') := classify id params (a, k, va, vk) in
    map described a'
    = map described a ++ map describes (filter is_positional params)
    /\ map described k'
       = map described k ++ map describes (filter is_keyword_only params)
    /\ (match va' with Some _ => true | None => false end
        = (match va with Some _ => true | None => false end
           || existsb is_var_positional params))
    /\ (match vk' with Some _ => true | None => false end
        = (match vk with Some _ => true | None => false end
           || existsb is_var_keyword params)).
Proof.
  induction params as [|p r IH]; intros id a k va vk.
  - simpl. rewrite !app_nil_r, !orb_false_r. auto.
  - simpl. unfold is_positional, is_keyword_only, is_var_positional,
             is_var_keyword.
    destruct (param_kind p) eqn:Hk;
      match goal with
      | |- context [classify ?i r ?acc] =>
          let a1 := fresh in let k1 := fresh in
          let va1 := fresh in let vk1 := fresh in
          destruct acc as [[[a1 k1] va1] vk1] eqn:Hacc;
          injection Hacc as <- <- <- <-
      end;
      match goal with
      | |- context [classify ?i r (?a1, ?k1, ?va1, ?vk1)] =>
          specialize (IH i a1 k1 va1 vk1);
          destruct (classify i r (a1, k1, va1, vk1)) as [[[a' k'] va'] vk']
      end;
      destruct IH as (Ha & Hk' & Hva & Hvk);
      rewrite Ha, Hk', Hva, Hvk;
      rewrite ?map_app; simpl; rewrite <- ?app_assoc; simpl;
      rewrite ?orb_true_r; repeat split; reflexivity.
Qed.

(** An argument built from a parameter: it has the name of the parameter,
    and its value specification is derived from the default when there is
    one (and then has that default), else from the annotation when there is
    one, else it is the unconstrained one. *)
Definition built_from (param : inspect_Parameter) (a : Argument VS) : Prop :=
  arg_name a = param_name param
  /\ arg_value_spec a
     = match param_default param with
       | Some d => vs_set_default (vs_from_annotation (Some d) true) d
       | None =>
           match param_annotation param with
           | Some an => vs_from_annotation (Some an) true
           | None => vs_from_annotation None false
           end
       end.

Lemma built_from_map (params : list inspect_Parameter)
    (l : list (Argument VS)) :
  map described l = map describes params -> Forall2 built_from params l.
Proof.
  revert l. induction params as [|p r IH]; intros [|a t] Hm;
    try discriminate; constructor.
  - simpl in Hm. injection Hm as Hn Hs _. split; assumption.
  - apply IH. simpl in Hm. now injection Hm.
Qed.

Lemma first_raise_none (params : list inspect_Parameter) :
  first_raise params = None
  <-> Forall (fun p => param_value_spec_raises p = None) params.
Proof.
  induction params as [|p r IH]; simpl.
  - split; [constructor | reflexivity].
  - destruct (param_value_spec_raises p) eqn:E.
    + split; [discriminate | intros H; inversion H; congruence].
    + rewrite IH. split; [now constructor | intros H; now inversion H].
Qed.

Lemma first_raise_some (pre post : list inspect_Parameter)
    (p : inspect_Parameter) (e : exn) :
  Forall (fun q => param_value_spec_raises q = None) pre ->
  param_value_spec_raises p = Some e ->
  first_raise (pre ++ p :: post) = Some e.
Proof.
  induction 1 as [|q r Hq Hr IH]; intros Hp; simpl.
  - now rewrite Hp.
  - rewrite Hq. now apply IH.
Qed.

(** X9. Introspection of a routine either raises or keeps the declaration
    order and drops nothing.  It raises what [inspect.signature] raises,
    and otherwise what the derivation of a value specification raises on
    the first parameter where it does.  When it returns a signature, none of
    these raised; the positional arguments are built, in order, from the
    positional parameters and the keyword-only arguments from the
    keyword-only parameters; there is a starred slot exactly when the
    routine has a starred parameter, of each sort; the signature is an
    instance of [Signature] itself, for a method exactly when the routine is
    bound. *)
Theorem from_callable_keeps_declaration_order :
  forall (id : nat) (func : routine),
    (forall e,
       r_signature_error func = Some e ->
       from_callable (VS := VS) id (Routine func) = Raise e)
    /\ (forall pre p post e,
          r_signature_error func = None ->
          r_parameters func = pre ++ p :: post ->
          Forall (fun q => param_value_spec_raises q = None) pre ->
          param_value_spec_raises p = Some e ->
          from_callable (VS := VS) id (Routine func) = Raise e)
    /\ (forall sig : Signature VS,
          from_callable id (Routine func) = Ok sig ->
          r_signature_error func = None
          /\ Forall (fun q => param_value_spec_raises q = None)
                    (r_parameters func)
          /\ Forall2 built_from
                     (filter is_positional (r_parameters func)) (args sig)
          /\ Forall2 built_from
                     (filter is_keyword_only (r_parameters func))
                     (kwonlyargs sig)
          /\ has_varargs sig = existsb is_var_positional (r_parameters func)
          /\ has_varkw sig = existsb is_var_keyword (r_parameters func)
          /\ sig_class sig = Signature_class
          /\ callable_type sig = (if r_bound func then METHOD else FUNCTION)
          /\ name sig = r_name func).
Proof.
  intros id func. unfold from_callable, introspect, inspect_signature.
  split; [|split].
  - intros e He. now rewrite He.
  - intros pre p post e Hsig Hparams Hpre Hp.
    rewrite Hsig, Hparams, (first_raise_some pre post p e Hpre Hp).
    reflexivity.
  - intros sig.
    destruct (r_signature_error func) as [e|]; [discriminate|].
    destruct (first_raise (r_parameters func)) eqn:Hfirst; [discriminate|].
    intros [= <-]. split; [reflexivity|].
    split; [now apply first_raise_none|].
    unfold signature_of_routine.
    pose proof (classify_buckets (r_parameters func) (S id) [] [] None None)
      as Hc.
    destruct (classify (S id) (r_parameters func) ([], [], None, None))
      as [[[a k] va] vk].
    destruct Hc as (Ha & Hk & Hva & Hvk). simpl in *.
    unfold has_varargs, has_varkw. simpl.
    repeat split; try assumption; now apply built_from_map.
Qed.

(** ** Looking up a value specification *)

(** X10. [get_value_spec] answers with the specification of the first
    positional or keyword-only argument of that name; for any other name,
    the names of the starred slots included, it answers with the
    specification of the [**] slot; and it answers [None] exactly when the
    name is no such argument and there is no [**] slot. *)
Theorem get_value_spec_falls_back_to_varkw :
  forall (self : Signature VS) (n : string),
    (In n (arg_names self) ->
     exists pre a post,
       named_args self = pre ++ a :: post
       /\ arg_name a = n
       /\ ~ In n (map arg_name pre)
       /\ get_value_spec self n = Some (arg_value_spec a))
    /\ (~ In n (arg_names self) ->
        get_value_spec self n = option_map arg_value_spec (varkw self))
    /\ (get_value_spec self n = None
        <-> ~ In n (arg_names self) /\ varkw self = None).
Proof.
  intros self n. unfold get_value_spec, arg_names.
  assert (Hfind : forall l : list (Argument VS),
             (In n (map arg_name l) ->
              exists pre a post,
                l = pre ++ a :: post /\ arg_name a = n
                /\ ~ In n (map arg_name pre)
                /\ find (fun arg => String.eqb (arg_name arg) n) l = Some a)
             /\ (~ In n (map arg_name l) ->
                 find (fun arg => String.eqb (arg_name arg) n) l = None)).
  { induction l as [|x t [IHin IHout]]; simpl.
    - split; [contradiction | reflexivity].
    - destruct (String.eqb (arg_name x) n) eqn:E.
      + apply String.eqb_eq in E. split; [|tauto].
        intros _. exists [], x, t. simpl. auto.
      + apply String.eqb_neq in E. split.
        * intros [Hx|Hin]; [contradiction|].
          destruct (IHin Hin) as (pre & a & post & -> & Ha & Hpre & Hf).
          exists (x :: pre), a, post. simpl. repeat split; auto.
          intros [Hx|Hp]; auto.
        * intros Hno. apply IHout. tauto. }
  destruct (Hfind (named_args self)) as [Hin Hout].
  split; [|split].
  - intros H. destruct (Hin H) as (pre & a & post & Hl & Ha & Hpre & Hf).
    exists pre, a, post. rewrite Hf. auto.
  - intros H. rewrite (Hout H). destruct (varkw self); reflexivity.
  - split.
    + intros Hnone. assert (Hno : ~ In n (map arg_name (named_args self))).
      { intros H. destruct (Hin H) as (pre & a & post & _ & _ & _ & Hf).
        rewrite Hf in Hnone. discriminate. }
      split; [exact Hno|]. rewrite (Hout Hno) in Hnone.
      destruct (varkw self); [discriminate | reflexivity].
    + intros [Hno Hkw]. rewrite (Hout Hno), Hkw. reflexivity.
Qed.

End Introspection.

Lemma from_callable_keeps_declaration_order_witness :
  from_callable (VS := simple_spec) 0
    (Routine (mkRoutine "g" (Some "__main__") "g" false
                        (Some ValueError) []))
  = Raise ValueError
  /\ from_callable (VS := simple_spec) 0
       (Routine (mkRoutine "g" (Some "__main__") "g" false None
                   [ mkParameter "a" POSITIONAL_OR_KEYWORD None None;
                     mkParameter "m" KEYWORD_ONLY (Some (VModule "os")) None;
                     mkParameter "k" VAR_KEYWORD None None ]))
     = Raise TypeError
  /\ (Forall2 built_from
              (filter is_positional (r_parameters f_routine))
              (args (signature_of_routine (VS := simple_spec) 0 f_routine))
      /\ Forall2 built_from
                 (filter is_keyword_only (r_parameters f_routine))
                 (kwonlyargs
                    (signature_of_routine (VS := simple_spec) 0 f_routine))).
Proof.
  split; [|split];
    [| |pose proof (proj2 (proj2 (from_callable_keeps_declaration_order
                                    (VS := simple_spec) 0 f_routine))
                          (signature_of_routine 0 f_routine) eq_refl)
          as (_ & _ & Ha & Hk & _); exact (conj Ha Hk)].
  - exact (proj1 (from_callable_keeps_declaration_order
                    (VS := simple_spec) 0
                    (mkRoutine "g" (Some "__main__") "g" false
                               (Some ValueError) []))
                 ValueError eq_refl).
  - refine (proj1 (proj2 (from_callable_keeps_declaration_order
                            (VS := simple_spec) 0
                            (mkRoutine "g" (Some "__main__") "g" false None
                               [ mkParameter "a" POSITIONAL_OR_KEYWORD
                                             None None;
                                 mkParameter "m" KEYWORD_ONLY
                                             (Some (VModule "os")) None;
                                 mkParameter "k" VAR_KEYWORD None None ])))
                   [mkParameter "a" POSITIONAL_OR_KEYWORD None None]
                   (mkParameter "m" KEYWORD_ONLY (Some (VModule "os")) None)
                   [mkParameter "k" VAR_KEYWORD None None]
                   TypeError eq_refl eq_refl _ eq_refl).
    repeat constructor.
Defined.

(** ** The layout of a synthesised parameter list *)

Section Layout.
Context {VS : Type} {ops : ValueSpecOps VS}.

Lemma fst_append_kwonly_texts (l : list (Argument VS)) :
  forall st : list string * strdict value,
    fst (append_kwonly l st) = fst st ++ kwonly_texts l.
Proof.
  induction l as [|a r IH]; intros st; simpl.
  - now rewrite app_nil_r.
  - rewrite IH, fst_append_arg. simpl. now rewrite <- app_assoc.
Qed.

(** X11. The parameter list [make_function] writes is, for every
    signature: the positional entries; then the starred argument, or a bare
    star when there are keyword-only arguments and no starred one, or
    nothing; then the keyword-only entries, each with a default only when
    its own specification has one; then the double-starred argument.  The
    starred entries never carry a default. *)
Theorem make_function_parameter_layout :
  forall (self : Signature VS) (body : list string)
         (g l : option (strdict value)),
    syn_args (make_function self body g l)
    = positional_texts (args self) false
      ++ star_texts self
      ++ kwonly_texts (kwonlyargs self)
      ++ varkw_texts self.
Proof.
  intros self body g l. unfold make_function.
  destruct (build_args self (or_else l [])) as [texts loc] eqn:Hbuild.
  simpl. assert (Hfst : texts = fst (build_args self (or_else l [])))
    by (now rewrite Hbuild).
  rewrite Hfst. clear Hbuild Hfst. unfold build_args, star_texts, varkw_texts.
  destruct (varkw self) as [kw|]; [rewrite fst_append_arg|];
    rewrite fst_append_kwonly_texts;
    (destruct (varargs self) as [va|];
     [rewrite fst_append_arg
     |destruct (kwonlyargs self) as [|k0 kr]; simpl fst]);
    rewrite fst_append_positional; simpl;
    rewrite <- ?app_assoc, ?app_nil_r; reflexivity.
Qed.

Lemma bound_for_false (n k : string) :
  bound_for n k = false ->
  k <> ("_annotation_" ++ n)%string /\ k <> ("_default_" ++ n)%string.
Proof.
  unfold bound_for. intros H. apply orb_false_iff in H as [Ha Hd].
  split; now apply String.eqb_neq.
Qed.

Lemma snd_append_arg (n : string) (spec : VS) (force : bool) (prefix k : string)
    (st : list string * strdict value) :
  bound_for n k = false ->
  dict_get k (snd (_append_arg n spec force prefix st)) = dict_get k (snd st).
Proof.
  intros H. apply bound_for_false in H as [Ha Hd].
  destruct st as [acc loc]. unfold _append_arg.
  destruct (vs_annotation spec);
    destruct (String.eqb prefix "" && (force || vs_has_default spec));
    simpl; rewrite ?dict_get_set_other by assumption; reflexivity.
Qed.

Lemma snd_append_positional (k : string) (l : list (Argument VS)) :
  forall (flag : bool) (st : list string * strdict value),
    (forall a, In a l -> bound_for (arg_name a) k = false) ->
    dict_get k (snd (append_positional l flag st)) = dict_get k (snd st).
Proof.
  induction l as [|a r IH]; intros flag st Hk; simpl; [reflexivity|].
  rewrite IH by (intros; apply Hk; simpl; auto).
  apply snd_append_arg. apply Hk. simpl. auto.
Qed.

Lemma snd_append_kwonly (k : string) (l : list (Argument VS)) :
  forall st : list string * strdict value,
    (forall a, In a l -> bound_for (arg_name a) k = false) ->
    dict_get k (snd (append_kwonly l st)) = dict_get k (snd st).
Proof.
  induction l as [|a r IH]; intros st Hk; simpl; [reflexivity|].
  rewrite IH by (intros; apply Hk; simpl; auto).
  apply snd_append_arg. apply Hk. simpl. auto.
Qed.

(** X12. Before it calls [object_utils.make_function], [make_function]
    writes into the local namespace only under the names
    [_annotation_<arg>] and [_default_<arg>] of the arguments of the
    signature: in the namespace it hands over, every other name is bound to
    what it was bound to in the namespace it was given, or is unbound as it
    was. *)
Theorem build_args_keeps_other_locals :
  forall (self : Signature VS) (exec_locals : strdict value) (k : string),
    (forall a, In a (all_arguments self) ->
               bound_for (arg_name a) k = false) ->
    dict_get k (snd (build_args self exec_locals)) = dict_get k exec_locals.
Proof.
  intros self exec_locals k Hk. unfold build_args.
  unfold all_arguments in Hk.
  assert (Hargs : forall a, In a (args self) ->
                            bound_for (arg_name a) k = false)
    by (intros a Ha; apply Hk; apply in_or_app; auto).
  assert (Hkwonly : forall a, In a (kwonlyargs self) ->
                              bound_for (arg_name a) k = false).
  { intros a Ha. apply Hk. apply in_or_app. right.
    apply in_or_app. right. apply in_or_app. auto. }
  assert (Hva : forall va, varargs self = Some va ->
                           bound_for (arg_name va) k = false).
  { intros va E. apply Hk. rewrite E. apply in_or_app. right.
    simpl. auto. }
  assert (Hvk : forall kw, varkw self = Some kw ->
                           bound_for (arg_name kw) k = false).
  { intros kw E. apply Hk. rewrite E. apply in_or_app. right.
    apply in_or_app. right. apply in_or_app. right. simpl. auto. }
  destruct (varkw self) as [kw|];
    [rewrite snd_append_arg by (now apply Hvk)|];
    rewrite snd_append_kwonly by exact Hkwonly;
    (destruct (varargs self) as [va|];
     [rewrite snd_append_arg by (now apply Hva)
     |destruct (kwonlyargs self); simpl snd]);
    now rewrite snd_append_positional by exact Hargs.
Qed.

End Layout.

Lemma build_args_keeps_other_locals_witness :
  dict_get "helper"
    (snd (build_args (signature_of_routine 0 f_routine)
                     [("helper", vint 5)]))
  = Some (vint 5).
Proof.
  refine (build_args_keeps_other_locals
            (signature_of_routine 0 f_routine) [("helper", vint 5)]
            "helper" _).
  intros a Ha. simpl in Ha.
  repeat (destruct Ha as [<-|Ha]; [reflexivity|]). contradiction.
Defined.

(** ** JSON trees *)

(** What [to_json] is meant to produce: primitives, lists of trees, and
    dictionaries whose values are trees. *)
Fixpoint json_tree (v : value) : bool :=
  match v with
  | VNone | VBool _ | VInt _ _ | VFloat _ _ | VStr _ _ => true
  | VList Exact items => forallb json_tree items
  | VDict Exact items =>
      forallb (fun kv : value * value => json_tree (snd kv)) items
  | _ => false
  end.

Lemma mapM_fixed {A : Type} (f : A -> M A) (l : list A) :
  Forall (fun x => forall s, f x s = (Ok x, s)) l ->
  forall s, mapM f l s = (Ok l, s).
Proof.
  induction 1 as [|x t Hx Ht IH]; intros s; simpl; [reflexivity|].
  unfold bind. rewrite Hx, IH. reflexivity.
Qed.

Lemma mapM_values_fixed (f : value -> M value) (l : list (value * value)) :
  Forall (fun kv => forall s, f (snd kv) s = (Ok (snd kv), s)) l ->
  forall s,
    mapM (fun kv : value * value =>
            let (k, x) := kv in y <- f x ;; ret (k, y)) l s = (Ok l, s).
Proof.
  induction 1 as [|[k x] t Hx Ht IH]; intros s; simpl; [reflexivity|].
  unfold bind. simpl in Hx. rewrite Hx. unfold ret at 1. rewrite IH.
  reflexivity.
Qed.

Lemma Forall_forallb_imp {A : Type} (P : A -> Prop) (p : A -> bool)
    (l : list A) :
  Forall (fun x => p x = true -> P x) l ->
  forallb p l = true -> Forall P l.
Proof.
  induction 1 as [|x t Hx Ht IH]; simpl; intros H; constructor;
    apply andb_prop in H as [H1 H2]; auto.
Qed.

Lemma json_tree_serialises_to_itself :
  forall (rt : runtime) (fuel : nat) (kw : kwargs) (v : value) (s : pystate),
    json_tree v = true ->
    to_json rt fuel v kw s = (Ok v, s).
Proof.
  intros rt fuel kw v. induction v using value_nested_ind;
    intros sigma Hj; try discriminate Hj;
    try (rewrite to_json_unfold; reflexivity).
  - destruct t; [|discriminate Hj]. simpl in Hj.
    rewrite to_json_unfold. simpl. unfold bind.
    rewrite (mapM_fixed (fun item => to_json rt fuel item kw) items).
    + reflexivity.
    + apply (Forall_forallb_imp _ json_tree); [|exact Hj].
      eapply Forall_impl; [|exact H]. intros a Ha Hja s0. now apply Ha.
  - destruct t; [|discriminate Hj]. simpl in Hj.
    rewrite to_json_unfold. simpl. unfold bind.
    rewrite (mapM_values_fixed (fun x => to_json rt fuel x kw) items).
    + reflexivity.
    + apply (Forall_forallb_imp _ (fun kv => json_tree (snd kv)));
        [|exact Hj].
      eapply Forall_impl; [|exact H]. intros a Ha Hja s0. now apply Ha.
Qed.

(** X19. A JSON tree is its own serialisation: on primitives, lists and
    dictionaries made of nothing else, [to_json] returns its argument,
    whatever the keyword flags, the converter and the keys of the
    dictionaries, and leaves the state alone. *)
Theorem to_json_fixes_json_trees :
  forall (rt : runtime) (fuel : nat) (kw : kwargs) (v : value) (s : pystate),
    json_tree v = true ->
    to_json rt fuel v kw s = (Ok v, s).
Proof.
  exact json_tree_serialises_to_itself.
Qed.

Lemma to_json_fixes_json_trees_witness :
  to_json small_runtime 0
    (vlist [vint 1; vdict [(vint 2, vlist [VNone; vstr "__tuple__"])]])
    [("flag", VBool true)] initial_state
  = (Ok (vlist [vint 1; vdict [(vint 2, vlist [VNone; vstr "__tuple__"])]]),
     initial_state).
Proof.
  exact (to_json_fixes_json_trees small_runtime 0 [("flag", VBool true)]
           (vlist [vint 1; vdict [(vint 2, vlist [VNone; vstr "__tuple__"])]])
           initial_state eq_refl).
Defined.

(** X20. A JSON tree that uses neither the tuple marker at the head of a
    list nor the type key in a dictionary is read back as itself:
    [from_json] returns its argument and leaves the state alone. *)
Theorem from_json_fixes_unmarked_trees :
  forall (rt : runtime) (v : value) (s : pystate),
    json_tree v = true ->
    unambiguous v = true ->
    from_json rt v s = (Ok v, s).
Proof.
  intros rt v. induction v using value_nested_ind;
    intros sigma Hj Hu; try discriminate Hj; try reflexivity.
  - destruct t; [|discriminate Hj]. simpl in Hj, Hu.
    apply andb_prop in Hu as [Hm Hu]. apply negb_true_iff in Hm.
    rewrite from_json_list, Hm. unfold bind.
    rewrite (mapM_fixed (from_json rt) items); [reflexivity|].
    apply (Forall_forallb_imp _ unambiguous); [|exact Hu].
    assert (Hall : Forall (fun x => json_tree x = true) items)
      by (now apply forallb_forall_Forall || (apply Forall_forall;
          intros x Hx; eapply forallb_forall in Hj; eauto)).
    clear Hj Hu Hm. induction H as [|x t Hx Ht IH]; constructor.
    + inversion Hall; subst. intros Hux s0. now apply Hx.
    + apply IH. now inversion Hall.
  - destruct t; [|discriminate Hj]. simpl in Hj, Hu.
    apply andb_prop in Hu as [Hk Hu]. apply negb_true_iff in Hk.
    rewrite from_json_plain_dict by exact Hk. unfold bind.
    rewrite (mapM_values_fixed (from_json rt) items); [reflexivity|].
    apply (Forall_forallb_imp _ (fun kv => unambiguous (snd kv)));
      [|exact Hu].
    assert (Hall : Forall (fun kv : value * value =>
                             json_tree (snd kv) = true) items)
      by (apply Forall_forall; intros x Hx;
          eapply forallb_forall in Hj; eauto).
    clear Hj Hu Hk. induction H as [|x t Hx Ht IH]; constructor.
    + inversion Hall; subst. intros Hux s0. now apply Hx.
    + apply IH. now inversion Hall.
Qed.

Lemma from_json_fixes_unmarked_trees_witness :
  from_json small_runtime
    (vlist [vint 1; vdict [(vint 2, vlist [VNone; vstr "__tuple__"])]])
    initial_state
  = (Ok (vlist [vint 1; vdict [(vint 2, vlist [VNone; vstr "__tuple__"])]]),
     initial_state).
Proof.
  exact (from_json_fixes_unmarked_trees small_runtime
           (vlist [vint 1; vdict [(vint 2, vlist [VNone; vstr "__tuple__"])]])
           initial_state eq_refl eq_refl).
Defined.

(** X18. Plain data always serialises, ambiguous or not: [to_json] of
    primitives, lists, tuples and string-keyed dictionaries succeeds without
    touching the state, its result is a JSON tree (no tuple is left in it),
    and serialising the result again changes nothing. *)
Theorem to_json_plain_data_is_json_tree :
  forall (rt : runtime) (fuel : nat) (kw : kwargs) (x : value),
    plain_data x = true ->
    exists j,
      json_tree j = true
      /\ (forall s, to_json rt fuel x kw s = (Ok j, s))
      /\ (forall s, to_json rt fuel j kw s = (Ok j, s)).
Proof.
  intros rt fuel kw x Hp.
  assert (H : exists j, json_tree j = true
                        /\ forall s, to_json rt fuel x kw s = (Ok j, s)).
  { revert Hp. induction x using value_nested_ind; intros Hp;
      try discriminate Hp;
      try (eexists; split; [|intros; rewrite to_json_unfold; reflexivity];
           reflexivity).
    - destruct t; [|discriminate Hp]. simpl in Hp.
      assert (Hl : exists js, forallb json_tree js = true
                   /\ forall s, mapM (fun item => to_json rt fuel item kw)
                                     items s = (Ok js, s)).
      { clear - H Hp. induction H as [|x t Hx Ht IH]; simpl in *.
        - exists []. split; reflexivity.
        - apply andb_prop in Hp as [Hpx Hpt].
          destruct (Hx Hpx) as (j & Hj & Hto).
          destruct (IH Hpt) as (js & Hjs & Htos).
          exists (j :: js). split; [simpl; now rewrite Hj, Hjs|].
          intros s. unfold bind. rewrite Hto, Htos. reflexivity. }
      destruct Hl as (js & Hjs & Htos).
      exists (vlist (vstr TUPLE_MARKER :: js)). split; [exact Hjs|].
      intros s. rewrite to_json_unfold. simpl. unfold bind.
      rewrite Htos. reflexivity.
    - destruct t; [|discriminate Hp]. simpl in Hp.
      assert (Hl : exists js, forallb json_tree js = true
                   /\ forall s, mapM (fun item => to_json rt fuel item kw)
                                     items s = (Ok js, s)).
      { clear - H Hp. induction H as [|x t Hx Ht IH]; simpl in *.
        - exists []. split; reflexivity.
        - apply andb_prop in Hp as [Hpx Hpt].
          destruct (Hx Hpx) as (j & Hj & Hto).
          destruct (IH Hpt) as (js & Hjs & Htos).
          exists (j :: js). split; [simpl; now rewrite Hj, Hjs|].
          intros s. unfold bind. rewrite Hto, Htos. reflexivity. }
      destruct Hl as (js & Hjs & Htos).
      exists (vlist js). split; [exact Hjs|].
      intros s. rewrite to_json_unfold. simpl. unfold bind.
      rewrite Htos. reflexivity.
    - destruct t; [|discriminate Hp]. simpl in Hp.
      assert (Hl : exists js,
                     forallb (fun kv : value * value => json_tree (snd kv))
                             js = true
                     /\ forall s,
                          mapM (fun kv : value * value =>
                                  let (k, x) := kv in
                                  y <- to_json rt fuel x kw ;; ret (k, y))
                               items s = (Ok js, s)).
      { clear - H Hp. induction H as [|[k x] t Hx Ht IH]; simpl in *.
        - exists []. split; reflexivity.
        - apply andb_prop in Hp as [Hpx Hpt].
          apply andb_prop in Hpx as [_ Hpx].
          destruct (Hx Hpx) as (j & Hj & Hto).
          destruct (IH Hpt) as (js & Hjs & Htos).
          exists ((k, j) :: js). split; [simpl; now rewrite Hj, Hjs|].
          intros s. unfold bind. rewrite Hto. unfold ret at 1.
          rewrite Htos. reflexivity. }
      destruct Hl as (js & Hjs & Htos).
      exists (vdict js). split; [exact Hjs|].
      intros s. rewrite to_json_unfold. simpl. unfold bind.
      rewrite Htos. reflexivity. }
  destruct H as (j & Hj & Hto). exists j. split; [exact Hj|].
  split; [exact Hto|].
  intros s. now apply json_tree_serialises_to_itself.
Qed.

Lemma to_json_plain_data_is_json_tree_witness :
  exists j,
    json_tree j = true
    /\ (forall s,
          to_json small_runtime 0 (vtuple [vtuple []; vlist [vstr "__tuple__"]])
                  [] s = (Ok j, s))
    /\ (forall s, to_json small_runtime 0 j [] s = (Ok j, s)).
Proof.
  exact (to_json_plain_data_is_json_tree small_runtime 0 []
           (vtuple [vtuple []; vlist [vstr "__tuple__"]]) eq_refl).
Defined.

(** ** Dictionaries without a type *)

(** X17. A dictionary without the key ['_type'] is read value by value:
    when [from_json] succeeds on it, the result is a plain dictionary with
    the same keys in the same order, each bound to what [from_json] makes of
    its value; the keys are not looked at beyond the search for
    ['_type']. *)
Theorem from_json_untyped_dict_keeps_keys :
  forall (rt : runtime) (t : pytype) (items : list (value * value))
         (s s' : pystate) (r : value),
    dict_has_key TYPE_NAME_KEY items = false ->
    from_json rt (VDict t items) s = (Ok r, s') ->
    exists l,
      r = vdict l
      /\ map fst l = map fst items
      /\ Forall2 (fun kv kv' =>
                    exists s1 s2,
                      from_json rt (snd kv) s1 = (Ok (snd kv'), s2)) items l.
Proof.
  intros rt t items s s' r Hk Hr.
  rewrite from_json_plain_dict in Hr by exact Hk.
  unfold bind in Hr at 1.
  match type of Hr with
  | context [mapM ?f items s] =>
      destruct (mapM f items s) as [[l|e] s1] eqn:Hl; [|discriminate]
  end.
  unfold ret in Hr. injection Hr as <- _.
  exists l. split; [reflexivity|].
  apply mapM_ok_inv in Hl. clear Hk.
  induction Hl as [|[k x] [k' y] items' l' Hxy Hrest IH].
  - split; constructor.
  - destruct Hxy as (s1' & s2' & Hxy). unfold bind in Hxy.
    destruct (from_json rt x s1') as [[y'|e] s3] eqn:Hx; [|discriminate].
    unfold ret in Hxy. injection Hxy as <- <- _.
    destruct IH as [IHk IHv]. split.
    + simpl. now rewrite IHk.
    + constructor; [simpl; eauto | exact IHv].
Qed.

Lemma from_json_untyped_dict_keeps_keys_witness :
  exists l,
    vdict [(vint 1, vtuple [vint 2])] = vdict l
    /\ map fst l = map fst [(vint 1, vlist [vstr "__tuple__"; vint 2])]
    /\ Forall2 (fun kv kv' =>
                  exists s1 s2,
                    from_json small_runtime (snd kv) s1 = (Ok (snd kv'), s2))
               [(vint 1, vlist [vstr "__tuple__"; vint 2])] l.
Proof.
  exact (from_json_untyped_dict_keeps_keys small_runtime Exact
           [(vint 1, vlist [vstr "__tuple__"; vint 2])]
           initial_state initial_state (vdict [(vint 1, vtuple [vint 2])])
           eq_refl eq_refl).
Defined.

(** ** What [to_json] refuses, and what it does with the keywords *)

(** X21. Two values are refused with [ValueError] and no change of state:
    an object that is neither convertible nor of a builtin kind, when no
    type converter is installed or the installed one has nothing for its
    class; and a method bound to anything but a class. *)
Theorem to_json_refusals :
  forall (rt : runtime) (fuel : nat) (kw : kwargs) (s : pystate),
    (forall c st,
       cls_convertible c = false ->
       match TYPE_CONVERTER rt with
       | Some type_converter => type_converter c = None
       | None => True
       end ->
       to_json rt fuel (VObject c st) kw s = (Raise ValueError, s))
    /\ (forall module qualname self,
          isinstance_type self = false ->
          to_json rt fuel (VMethod module qualname self) kw s
          = (Raise ValueError, s)).
Proof.
  intros rt fuel kw s. split.
  - intros c st Hc Hconv. rewrite to_json_unfold. simpl.
    unfold isinstance_convertible. simpl. rewrite Hc.
    unfold convert_fallback. simpl.
    destruct (TYPE_CONVERTER rt) as [tc|]; [|reflexivity].
    now rewrite Hconv.
  - intros module qualname self Hself. rewrite to_json_unfold. simpl.
    unfold _method_to_json. now rewrite Hself.
Qed.

Lemma to_json_refusals_witness :
  to_json small_runtime 0
    (VObject (mkClass 104 "geometry" "Opaque" false false true None) 0) []
    initial_state
  = (Raise ValueError, initial_state).
Proof.
  exact (proj1 (to_json_refusals small_runtime 0 [] initial_state)
               (mkClass 104 "geometry" "Opaque" false false true None) 0
               eq_refl I).
Defined.

(** X6. The keyword flags reach only the [to_json] methods of convertible
    objects, directly or as elements of a tuple, list or dictionary: on
    every other value (a class, a function and its defaults, a method, a
    value handed to the type converter and what the converter makes of it)
    the result does not depend on them. *)
Theorem to_json_keywords_stop_at_converter :
  forall (rt : runtime) (fuel : nat) (v : value) (kw kw' : kwargs),
    isinstance_convertible v = false ->
    isinstance_tuple v = false ->
    isinstance_list v = false ->
    isinstance_dict v = false ->
    to_json rt fuel v kw = to_json rt fuel v kw'.
Proof.
  intros rt fuel v kw kw' Hc Ht Hl Hd.
  rewrite (to_json_unfold rt fuel v kw), (to_json_unfold rt fuel v kw').
  rewrite Hc. destruct v; try reflexivity; discriminate.
Qed.

Lemma to_json_keywords_stop_at_converter_witness :
  to_json small_runtime 0 a_lambda [("hide_default_values", VBool true)]
  = to_json small_runtime 0 a_lambda [].
Proof.
  exact (to_json_keywords_stop_at_converter small_runtime 0 a_lambda
           [("hide_default_values", VBool true)] []
           eq_refl eq_refl eq_refl eq_refl).
Defined.
